(** * kubernetes-py: the generic resource object and its wrappers

    A shallow embedding of [kubernetes/K8sObject.py],
    [kubernetes/K8sHorizontalPodAutoscaler.py] and
    [kubernetes/K8sStatefulSet.py].

    Methods that mutate [self] and talk to the cluster are written in a
    small state-and-exception monad: the state is the wrapper object
    together with the list of HTTP requests handed to the transport so far,
    a raised Python exception is the left injection of the result. *)

From Stdlib Require Import String List ZArith Bool Lia.
Import ListNotations.
Open Scope string_scope.
Open Scope Z_scope.

(** ** Parsed JSON documents *)

#[warnings="-register-all"]
Inductive Json : Type :=
| JNull
| JBool (b : bool)
| JNum (n : Z)
| JStr (s : string)
| JList (l : list Json)
| JDict (d : list (string * Json)).

(** A Python [dict] with string keys; the first binding of a key wins. *)
Definition Doc := list (string * Json).

Fixpoint dict_get (k : string) (d : Doc) : option Json :=
  match d with
  | [] => None
  | (k', v) :: d' => if String.eqb k k' then Some v else dict_get k d'
  end.

(** [None] is printed by [format] as the null value. *)
Definition opt_str (o : option string) : Json :=
  match o with
  | Some s => JStr s
  | None => JNull
  end.

Definition opt_str_eqb (a b : option string) : bool :=
  match a, b with
  | Some x, Some y => String.eqb x y
  | None, None => true
  | _, _ => false
  end.

(** Python's [p in s] on two strings. *)
Fixpoint str_contains (p s : string) : bool :=
  prefix p s ||
  match s with
  | EmptyString => false
  | String _ s' => str_contains p s'
  end.

(** Iterating a parsed value, as [map] and [for] do: a list yields its
    elements, a dict its keys, a string its characters; anything else is
    not iterable. *)
Fixpoint str_chars (s : string) : list Json :=
  match s with
  | EmptyString => []
  | String c s' => JStr (String c EmptyString) :: str_chars s'
  end.

(** ** Exceptions *)

Inductive ExnClass : Type :=
| SyntaxError
| TypeError
| AttributeError
| IOError
| Exception
| UnauthorizedException
| NotFoundException
| AlreadyExistsException
| UnprocessableEntityException
| BadRequestException.

(** The text of an exception is [template.format( *args )]; the template and
    its arguments are kept apart instead of being rendered. *)
Record Message : Type := Fmt { template : string; fmt_args : list Json }.

Record Exn : Type := Raise { exn_class : ExnClass; exn_msg : Message }.

Definition py_iter (j : Json) : Exn + list Json :=
  match j with
  | JList l => inr l
  | JDict d => inr (map (fun kv => JStr (fst kv)) d)
  | JStr s => inr (str_chars s)
  | _ => inl (Raise TypeError (Fmt "object is not iterable" []))
  end.

(** ** Configuration, document model, wrapper object *)

Module K8sConfig.
(** The fields of [K8sConfig] that [K8sObject] reads. *)
Record t : Type := Build {
  api_host : string;
  namespace : string;
  version : string;
  auth : option (string * string);
  cert : option (string * string);
  token : option string;
  ca_cert : option string;
  ca_cert_data : option string
}.
End K8sConfig.

Module ObjectMeta.
(** Modelled from the spec: the class [ObjectMeta] is not among the
    sources; the metadata of a document holds name, namespace, resource
    version, UID and further fields, here [other]. *)
Record t : Type := Build {
  name : option string;
  namespace : option string;
  resource_version : option string;
  uid : option string;
  other : Doc
}.

Definition set_name (n : option string) (m : t) : t :=
  Build n (namespace m) (resource_version m) (uid m) (other m).

Definition set_resource_version (v : option string) (m : t) : t :=
  Build (name m) (namespace m) v (uid m) (other m).

Definition set_uid (u : option string) (m : t) : t :=
  Build (name m) (namespace m) (resource_version m) u (other m).
End ObjectMeta.

Module Model.
(** Modelled from the spec: the base class of the document models is not
    among the sources; a document model holds kind, API version,
    metadata, spec and status, the last two kept as sub-documents. *)
Record t : Type := Build {
  kind : option string;
  api_version : option string;
  metadata : ObjectMeta.t;
  spec : Json;
  status : Json
}.

Definition set_metadata (md : ObjectMeta.t) (m : t) : t :=
  Build (kind m) (api_version m) md (spec m) (status m).

(** [x.name] on a document model. *)
Definition name (m : t) : option string := ObjectMeta.name (metadata m).
End Model.

(** The wrapper classes.  [K8sDeployment] and [K8sReplicationController]
    are the two further wrappers that [K8sHorizontalPodAutoscaler.py]
    imports.  Every wrapper derives from [K8sObject] directly. *)
Inductive K8sClass : Type :=
| Cls_K8sObject
| Cls_K8sHorizontalPodAutoscaler
| Cls_K8sStatefulSet
| Cls_K8sDeployment
| Cls_K8sReplicationController.

Definition K8sClass_eqb (a b : K8sClass) : bool :=
  match a, b with
  | Cls_K8sObject, Cls_K8sObject
  | Cls_K8sHorizontalPodAutoscaler, Cls_K8sHorizontalPodAutoscaler
  | Cls_K8sStatefulSet, Cls_K8sStatefulSet
  | Cls_K8sDeployment, Cls_K8sDeployment
  | Cls_K8sReplicationController, Cls_K8sReplicationController => true
  | _, _ => false
  end.

(** [issubclass(c, d)] *)
Definition issubclass (c d : K8sClass) : bool :=
  K8sClass_eqb c d || K8sClass_eqb d Cls_K8sObject.

Record K8sObject : Type := Build_K8sObject {
  cls : K8sClass;
  config : K8sConfig.t;
  obj_type : string;
  model : Model.t;
  base_url : string
}.

Definition set_model (m : Model.t) (o : K8sObject) : K8sObject :=
  Build_K8sObject (cls o) (config o) (obj_type o) m (base_url o).

(** The [name] property and its setter: both go through
    [self.model.metadata.name]. *)
Definition name (o : K8sObject) : option string :=
  ObjectMeta.name (Model.metadata (model o)).

Definition set_name (n : option string) (o : K8sObject) : K8sObject :=
  set_model (Model.set_metadata (ObjectMeta.set_name n (Model.metadata (model o))) (model o)) o.

Definition isinstance (o : K8sObject) (c : K8sClass) : bool :=
  issubclass (cls o) c.

Definition VALID_K8s_OBJS : list string :=
  [ "Deployment";
    "PersistentVolume";
    "Pod";
    "ReplicaSet";
    "ReplicationController";
    "Secret";
    "Service";
    "Volume" ].

(** [x in VALID_K8s_OBJS]; [None] is in no list of strings. *)
Definition in_VALID_K8s_OBJS (t : option string) : bool :=
  match t with
  | Some s => existsb (String.eqb s) VALID_K8s_OBJS
  | None => false
  end.

(** ** Transport *)

(** What [HttpRequest] is built from. *)
Record HttpRequest : Type := Build_HttpRequest {
  req_method : string;
  req_host : string;
  req_url : string;
  req_auth : option (string * string);
  req_cert : option (string * string);
  req_ca_cert : option string;
  req_ca_cert_data : option string;
  req_data : option Doc;
  req_token : option string
}.

(** The result of [HttpRequest.send]: the three entries that [K8sObject]
    reads with [state.get], a success flag, an integer status code and the
    body.  The body is whatever the answer held: a parsed JSON value, a
    text that did not parse ([JStr]), or [None] ([JNull]) when there was
    none.  The fallback [dict()] of [state.get('data', dict())] applies to
    a missing entry only; it is the body [JDict []]. *)
Record HttpState : Type := Build_HttpState {
  success : bool;
  status : Z;
  data : Json
}.

Definition is_dict (j : Json) : bool :=
  match j with
  | JDict _ => true
  | _ => false
  end.

(** The transport adapter is external.  It answers a request, given the
    requests sent before it, with a state or with the text of an
    [IOError]. *)
Definition Transport : Type :=
  list HttpRequest -> HttpRequest -> string + HttpState.

(** ** The monad of methods *)

Record World : Type := Build_World {
  self : K8sObject;
  wire : list HttpRequest
}.

Definition M (A : Type) : Type := World -> (Exn + A) * World.

Definition ret {A} (a : A) : M A := fun w => (inr a, w).

Definition bind {A B} (m : M A) (k : A -> M B) : M B :=
  fun w =>
    match m w with
    | (inr a, w') => k a w'
    | (inl e, w') => (inl e, w')
    end.

Definition raise {A} (c : ExnClass) (msg : Message) : M A :=
  fun w => (inl (Raise c msg), w).

Definition lift {A} (r : Exn + A) : M A := fun w => (r, w).

Definition get_self : M K8sObject := fun w => (inr (self w), w).

Definition put_self (o : K8sObject) : M unit :=
  fun w => (inr tt, Build_World o (wire w)).

Notation "x <- m ;; k" := (bind m (fun x => k))
  (at level 61, m at next level, right associativity).
Notation "m ;;; k" := (bind m (fun _ => k))
  (at level 61, right associativity).

(** [a if a is not None else b], read the way [request] writes it. *)
Definition or_else {A} (o : option A) (d : A) : A :=
  match o with
  | Some a => a
  | None => d
  end.

(** [list(map(f, xs))] and [list(filter(f, xs))] for an [f] that may raise:
    the first exception, in list order, ends the traversal. *)
Fixpoint map_exn {A B} (f : A -> Exn + B) (xs : list A) : Exn + list B :=
  match xs with
  | [] => inr []
  | x :: xs' =>
    match f x with
    | inl e => inl e
    | inr y =>
      match map_exn f xs' with
      | inl e => inl e
      | inr ys => inr (y :: ys)
      end
    end
  end.

Fixpoint filter_exn {A} (f : A -> Exn + bool) (xs : list A) : Exn + list A :=
  match xs with
  | [] => inr []
  | x :: xs' =>
    match f x with
    | inl e => inl e
    | inr b =>
      match filter_exn f xs' with
      | inl e => inl e
      | inr ys => inr (if b then x :: ys else ys)
      end
    end
  end.

(** [pattern in x.name]: a name that is [None] is not a container. *)
Definition name_matches (pattern : string) (x : Model.t) : Exn + bool :=
  match Model.name x with
  | Some n => inr (str_contains pattern n)
  | None => inl (Raise TypeError (Fmt "argument of type 'NoneType' is not iterable" []))
  end.

(** The exception of the kind check in [K8sObject.__init__]. *)
Definition kind_error (obj_type : option string) : Exn :=
  Raise SyntaxError
        (Fmt "K8sObject: obj_type: [ {0} ] must be in: [ {1} ]"
             [opt_str obj_type; JStr (String.concat ", " VALID_K8s_OBJS)]).

(** The class of the exception a call ended with, if it raised. *)
Definition raised {A} (r : Exn + A) : option ExnClass :=
  match r with
  | inl e => Some (exn_class e)
  | inr _ => None
  end.

(** ** Sample collaborators

    Concrete stand-ins for the collaborators, used to run the methods on
    explicit inputs. *)

Module Demo.

Definition cfg : K8sConfig.t :=
  K8sConfig.Build "localhost:8888" "default" "v1" None None None None None.

Definition meta_empty : ObjectMeta.t := ObjectMeta.Build None None None None [].

Definition model_empty (kind : string) : Model.t :=
  Model.Build (Some kind) (Some "v1") meta_empty JNull JNull.

Definition str_to_class (ty : string) : Exn + Model.t := inr (model_empty ty).

Definition get_base_url (version ns ty : string) : option string :=
  Some ("/api/" ++ version ++ "/namespaces/" ++ ns ++ "/" ++ ty).

Definition as_str (j : option Json) : option string :=
  match j with
  | Some (JStr s) => Some s
  | _ => None
  end.

(** Modelled from the spec: [ObjectMeta(model)] is not among the sources;
    the metadata is populated field by field from the parsed document. *)
Definition meta_of (j : Json) : ObjectMeta.t :=
  match j with
  | JDict d =>
    ObjectMeta.Build (as_str (dict_get "name" d)) (as_str (dict_get "namespace" d))
                     (as_str (dict_get "resourceVersion" d)) (as_str (dict_get "uid" d)) []
  | _ => meta_empty
  end.

(** Modelled from the spec: the document models that the wrappers import
    are not among the sources; a model is constructed empty with its kind
    and API version and then populated from a parsed document when one
    is supplied. *)
Definition model_of (kind : string) (j : Json) : Exn + Model.t :=
  match j with
  | JNull => inr (model_empty kind)
  | JDict d =>
    inr (Model.Build
           (match dict_get "kind" d with Some _ => as_str (dict_get "kind" d) | None => Some kind end)
           (match dict_get "apiVersion" d with
            | Some _ => as_str (dict_get "apiVersion" d)
            | None => Some "v1"
            end)
           (match dict_get "metadata" d with Some md => meta_of md | None => meta_empty end)
           (or_else (dict_get "spec" d) JNull)
           (or_else (dict_get "status" d) JNull))
  | _ => inl (Raise TypeError (Fmt "argument is not a document" []))
  end.

Definition meta_doc (md : ObjectMeta.t) : Doc :=
  ([ ("name", opt_str (ObjectMeta.name md));
     ("namespace", opt_str (ObjectMeta.namespace md));
     ("resourceVersion", opt_str (ObjectMeta.resource_version md));
     ("uid", opt_str (ObjectMeta.uid md)) ] ++ ObjectMeta.other md)%list.

(** Modelled from the spec: [serialize()] of the model base class is not
    among the sources; it produces the wire document back. *)
Definition serialize (m : Model.t) : Doc :=
  [ ("kind", opt_str (Model.kind m));
    ("apiVersion", opt_str (Model.api_version m));
    ("metadata", JDict (meta_doc (Model.metadata m)));
    ("spec", Model.spec m);
    ("status", Model.status m) ].

Definition DeleteOptions_serialize : Doc :=
  [ ("kind", JStr "DeleteOptions"); ("apiVersion", JStr "v1") ].

(** A transport that answers every request with the same state, and one
    that cannot reach the cluster. *)
Definition reply (st : HttpState) : Transport := fun _ _ => inr st.
Definition offline : Transport := fun _ _ => inl "connection refused".

Definition failure (code : Z) : HttpState :=
  Build_HttpState false code (JDict [ ("message", JStr "refused") ]).

(** An error answer without a body, and one whose body is plain text. *)
Definition bare (code : Z) : HttpState := Build_HttpState false code JNull.
Definition plain (code : Z) : HttpState :=
  Build_HttpState false code (JStr "Unauthorized").

(** An answer flagged successful that has no body. *)
Definition hollow : HttpState := Build_HttpState true 200 JNull.

Definition named_meta (n : string) : ObjectMeta.t :=
  ObjectMeta.Build (Some n) (Some "default") (Some "41") (Some "uid-7") [].

(** A fetched pod called "web". *)
Definition pod : K8sObject :=
  Build_K8sObject Cls_K8sObject cfg "Pod"
    (Model.Build (Some "Pod") (Some "v1") (named_meta "web") JNull JNull)
    "/api/v1/namespaces/default/pods".

(** A pod wrapper built without a name. *)
Definition anonymous : K8sObject :=
  Build_K8sObject Cls_K8sObject cfg "Pod" (model_empty "Pod")
    "/api/v1/namespaces/default/pods".

(** An autoscaler and a stateful set that share namespace and name. *)
Definition hpa : K8sObject :=
  Build_K8sObject Cls_K8sHorizontalPodAutoscaler cfg "HorizontalPodAutoscaler"
    (Model.Build (Some "HorizontalPodAutoscaler") (Some "v1") (named_meta "web") JNull JNull)
    "/apis/autoscaling/v1/namespaces/default/horizontalpodautoscalers".

Definition sts : K8sObject :=
  Build_K8sObject Cls_K8sStatefulSet cfg "StatefulSet"
    (Model.Build (Some "StatefulSet") (Some "apps/v1beta1") (named_meta "web") JNull JNull)
    "/apis/apps/v1beta1/namespaces/default/statefulsets".

(** A deployment and a replication controller called "web", too. *)
Definition dep : K8sObject :=
  Build_K8sObject Cls_K8sDeployment cfg "Deployment"
    (Model.Build (Some "Deployment") (Some "v1") (named_meta "web") JNull JNull)
    "/apis/extensions/v1beta1/namespaces/default/deployments".

Definition rc : K8sObject :=
  Build_K8sObject Cls_K8sReplicationController cfg "ReplicationController"
    (Model.Build (Some "ReplicationController") (Some "v1") (named_meta "web") JNull JNull)
    "/api/v1/namespaces/default/replicationcontrollers".

(** A successful answer to a request by name. *)
Definition found : HttpState :=
  Build_HttpState true 200
    (JDict [ ("kind", JStr "HorizontalPodAutoscaler");
             ("metadata", JDict [ ("name", JStr "web"); ("resourceVersion", JStr "42");
                                  ("uid", JStr "uid-7") ]) ]).

(** [is_valid_dict]: a dict, and not an empty one. *)
Definition is_valid_dict (data : option Doc) : bool :=
  match data with
  | Some (_ :: _) => true
  | _ => false
  end.

(** A successful answer to a list request: two autoscalers. *)
Definition item (n : string) : Json :=
  JDict [ ("metadata", JDict [ ("name", JStr n) ]) ].

Definition listing : HttpState :=
  Build_HttpState true 200
    (JDict [ ("kind", JStr "HorizontalPodAutoscalerList");
             ("items", JList [ item "php-apache"; item "nginx" ]) ]).

End Demo.

(** ** The autoscaler document model

    [kubernetes/models/v1beta1/HorizontalPodAutoscaler.py]. *)

(** [d[k] = v] on a dict: an existing key keeps its place. *)
Fixpoint dict_set (k : string) (v : Json) (d : Doc) : Doc :=
  match d with
  | [] => [(k, v)]
  | (k', v') :: d' =>
    if String.eqb k k' then (k, v) :: d' else (k', v') :: dict_set k v d'
  end.

(** [if k in model: ... model[k] ...]: the value to use, if any.  A dict
    is asked for the key.  On a list [in] looks for the string among the
    elements and on a string for a substring; when it finds one, the
    subscript that follows raises, since neither takes a string index.
    Any other value is no container. *)
Definition py_lookup (k : string) (model : Json) : Exn + option Json :=
  match model with
  | JDict d => inr (dict_get k d)
  | JList l =>
    if existsb (fun x => match x with JStr s => String.eqb s k | _ => false end) l
    then inl (Raise TypeError (Fmt "list indices must be integers or slices, not str" []))
    else inr None
  | JStr s =>
    if str_contains k s
    then inl (Raise TypeError (Fmt "string indices must be integers" []))
    else inr None
  | _ => inl (Raise TypeError (Fmt "argument is not iterable" []))
  end.

(** [value.get(k, default)]: only a dict has the method; the result is
    the entry, if there is one. *)
Definition py_get (k : string) (value : Json) : Exn + option Json :=
  match value with
  | JDict d => inr (dict_get k d)
  | _ => inl (Raise AttributeError (Fmt "object has no attribute 'get'" []))
  end.

Module Autoscaler.

(** The classes that the document model builds on and whose code is
    outside the file: the base model with its [kind], [api_version] and
    [metadata] properties, [ObjectMeta], and the spec and status classes
    of the autoscaler.  Constructors that parse a document and property
    setters may raise; constructors without argument and [serialize]
    return. *)
Class Parts : Type := {
  BaseModel : Type;
  Meta : Type;
  Spec : Type;
  Status : Type;
  (** [BaseModel.__init__] *)
  BaseModel_init : BaseModel;
  (** the assignments to [_kind] and [_api_version] *)
  assign_kind : string -> BaseModel -> BaseModel;
  assign_api_version : string -> BaseModel -> BaseModel;
  (** the property setters [kind], [api_version] and [metadata] *)
  set_kind : Json -> BaseModel -> Exn + BaseModel;
  set_api_version : Json -> BaseModel -> Exn + BaseModel;
  set_metadata : Meta -> BaseModel -> Exn + BaseModel;
  (** [ObjectMeta(model)] *)
  ObjectMeta_of : Json -> Exn + Meta;
  (** [HorizontalPodAutoscalerSpec()] and [HorizontalPodAutoscalerSpec(model)] *)
  Spec_default : Spec;
  Spec_of : Json -> Exn + Spec;
  (** [HorizontalPodAutoscalerStatus()] and [HorizontalPodAutoscalerStatus(model)] *)
  Status_default : Status;
  Status_of : Json -> Exn + Status;
  (** the three [serialize] methods *)
  BaseModel_serialize : BaseModel -> Doc;
  Spec_serialize : Spec -> Json;
  Status_serialize : Status -> Json
}.

Section Model.

Context {P : Parts}.

(** The attributes [_spec] and [_status] can hold [None] as far as
    [serialize] is concerned. *)
Record t : Type := Build {
  base : BaseModel;
  _spec : option Spec;
  _status : option Status
}.

(** The [spec] and [status] properties. *)
Definition spec (self : t) : option Spec := _spec self.
Definition status (self : t) : option Status := _status self.

(** The setters take any value and insist on an instance of the class:
    the value is either such an instance or something else, here a parsed
    value ([None] included). *)
Definition spec_setter (s : Spec + Json) (self : t) : Exn + t :=
  match s with
  | inl sp => inr (Build (base self) (Some sp) (_status self))
  | inr j =>
    inl (Raise SyntaxError (Fmt "HorizontalPodAutoscaler: spec: [ {} ] is invalid." [j]))
  end.

Definition status_setter (s : Status + Json) (self : t) : Exn + t :=
  match s with
  | inl st => inr (Build (base self) (_spec self) (Some st))
  | inr j =>
    inl (Raise SyntaxError (Fmt "HorizontalPodAutoscaler: status: [ {} ] is invalid." [j]))
  end.

Definition with_base (self : t) (b : BaseModel) : t :=
  Build b (_spec self) (_status self).

(** One [if key in model: ...] of [_build_with_model]: [use] is what the
    body does with [model[key]]. *)
Definition when_present (key : string) (model : Json) (use : Json -> t -> Exn + t)
           (self : t) : Exn + t :=
  match py_lookup key model with
  | inl e => inl e
  | inr None => inr self
  | inr (Some v) => use v self
  end.

Definition and_then (r : Exn + t) (k : t -> Exn + t) : Exn + t :=
  match r with
  | inl e => inl e
  | inr self => k self
  end.

Definition _build_with_model (model : Json) (self : t) : Exn + t :=
  and_then
    (when_present "kind" model
       (fun v self => match set_kind v (base self) with
                      | inl e => inl e
                      | inr b => inr (with_base self b)
                      end) self)
    (fun self =>
  and_then
    (when_present "apiVersion" model
       (fun v self => match set_api_version v (base self) with
                      | inl e => inl e
                      | inr b => inr (with_base self b)
                      end) self)
    (fun self =>
  and_then
    (when_present "metadata" model
       (fun v self => match ObjectMeta_of v with
                      | inl e => inl e
                      | inr md =>
                        match set_metadata md (base self) with
                        | inl e => inl e
                        | inr b => inr (with_base self b)
                        end
                      end) self)
    (fun self =>
  and_then
    (when_present "spec" model
       (fun v self => match Spec_of v with
                      | inl e => inl e
                      | inr sp => spec_setter (inl sp) self
                      end) self)
    (fun self =>
    when_present "status" model
       (fun v self => match Status_of v with
                      | inl e => inl e
                      | inr st => status_setter (inl st) self
                      end) self)))).

(** The object before a document is read into it. *)
Definition fresh : t :=
  Build (assign_api_version "extensions/v1beta1"
           (assign_kind "HorizontalPodAutoscaler" BaseModel_init))
        (Some Spec_default) (Some Status_default).

(** [HorizontalPodAutoscaler.__init__]; [JNull] is [None]. *)
Definition init (model : Json) : Exn + t :=
  match model with
  | JNull => inr fresh
  | _ => _build_with_model model fresh
  end.

(** [HorizontalPodAutoscaler.serialize] *)
Definition serialize (self : t) : Doc :=
  let data := BaseModel_serialize (base self) in
  let data := match spec self with
              | Some sp => dict_set "spec" (Spec_serialize sp) data
              | None => data
              end in
  match status self with
  | Some st => dict_set "status" (Status_serialize st) data
  | None => data
  end.

(** The objects that the constructor and the two setters can produce. *)
Inductive Reachable : t -> Prop :=
| reach_init (model : Json) (self : t) :
    init model = inr self -> Reachable self
| reach_spec (s : Spec + Json) (self self' : t) :
    Reachable self -> spec_setter s self = inr self' -> Reachable self'
| reach_status (s : Status + Json) (self self' : t) :
    Reachable self -> status_setter s self = inr self' -> Reachable self'.

End Model.

(** Sample parts: every sub-model is its parsed document. *)
#[local] Instance demo : Parts := {
  BaseModel := Doc;
  Meta := Json;
  Spec := Json;
  Status := Json;
  BaseModel_init := [];
  assign_kind k b := dict_set "kind" (JStr k) b;
  assign_api_version v b := dict_set "apiVersion" (JStr v) b;
  set_kind j b :=
    match j with
    | JStr _ => inr (dict_set "kind" j b)
    | _ => inl (Raise SyntaxError (Fmt "kind: [ {0} ] is invalid." [j]))
    end;
  set_api_version j b :=
    match j with
    | JStr _ => inr (dict_set "apiVersion" j b)
    | _ => inl (Raise SyntaxError (Fmt "api_version: [ {0} ] is invalid." [j]))
    end;
  set_metadata md b := inr (dict_set "metadata" md b);
  ObjectMeta_of j := inr j;
  Spec_default := JDict [];
  Spec_of j := inr j;
  Status_default := JDict [];
  Status_of j := inr j;
  BaseModel_serialize b := b;
  Spec_serialize sp := sp;
  Status_serialize st := st
}.

(** The autoscaler of the walkthrough, as the API returns it. *)
Definition php_apache : Doc :=
  [ ("kind", JStr "HorizontalPodAutoscaler");
    ("apiVersion", JStr "extensions/v1beta1");
    ("metadata", JDict [ ("name", JStr "php-apache") ]);
    ("spec", JDict [ ("minReplicas", JNum 1); ("maxReplicas", JNum 10) ]);
    ("status", JDict [ ("currentReplicas", JNum 1) ]);
    ("selfLink", JStr "/apis/extensions/v1beta1/php-apache") ].

End Autoscaler.

(** ** The methods *)

Section Methods.

(** Collaborators whose code is outside the files embedded here. *)

(** [HttpRequest(...).send()] *)
Variable send : Transport.
(** [K8sConfig()], which may fail while it looks for a configuration. *)
Variable K8sConfig_default : Exn + K8sConfig.t.
(** [str_to_class(obj_type)]: a fresh document model of the named kind. *)
Variable str_to_class : string -> Exn + Model.t.
(** [BaseUrls(api_version, namespace).get_base_url(object_type)];
    [None] when either call raises. *)
Variable get_base_url : string -> string -> string -> option string.
(** [model.serialize()] *)
Variable serialize : Model.t -> Doc.
(** [DeleteOptions().serialize()] *)
Variable DeleteOptions_serialize : Doc.
(** The document models [HorizontalPodAutoscaler(model)] and
    [StatefulSet(model)] that the two wrappers import. *)
Variable HorizontalPodAutoscaler : Json -> Exn + Model.t.
Variable StatefulSet : Json -> Exn + Model.t.
(** [is_valid_dict(data)] of [kubernetes.utils], on [None] or a dict. *)
Variable is_valid_dict : option Doc -> bool.

(** *** K8sObject *)

(** [K8sObject.__init__], run on behalf of the class [c] being
    instantiated.  [config] has type [K8sConfig.t], which settles the
    [isinstance] test of the source. *)
Definition K8sObject_init (c : K8sClass) (config : option K8sConfig.t)
           (obj_type : option string) (name : option string)
  : Exn + K8sObject :=
  match (match config with
         | Some cfg => inr cfg
         | None => K8sConfig_default
         end) with
  | inl e => inl e
  | inr cfg =>
    if negb (in_VALID_K8s_OBJS obj_type) then
      inl (kind_error obj_type)
    else
      let ty := or_else obj_type "" in
      match str_to_class ty with
      | inl e => inl e
      | inr m =>
        let m' := Model.set_metadata (ObjectMeta.set_name name (Model.metadata m)) m in
        match get_base_url (K8sConfig.version cfg) (K8sConfig.namespace cfg) ty with
        | Some u => inr (Build_K8sObject c cfg ty m' u)
        | None =>
          inl (Raise Exception
                 (Fmt "Could not set BaseUrl for type: [ {0} ]" [JStr ty]))
        end
      end
  end.

(** [K8sObject.__eq__]; [None] stands for [NotImplemented]. *)
Definition K8sObject_eq (self other : K8sObject) : option bool :=
  if isinstance other (cls self) then
    Some (String.eqb (K8sConfig.namespace (config self))
                     (K8sConfig.namespace (config other))
          && opt_str_eqb (name self) (name other))
  else None.

(** [a == b]: [a.__eq__(b)], then the reflected [b.__eq__(a)], then
    identity.  Identity is reached only when neither object is an
    instance of the other's class; two such objects are distinct. *)
Definition py_eq (a b : K8sObject) : bool :=
  match K8sObject_eq a b with
  | Some r => r
  | None =>
    match K8sObject_eq b a with
    | Some r => r
    | None => false
    end
  end.

(** [K8sObject.serialize]; the wrapper always holds a document model. *)
Definition K8sObject_serialize (o : K8sObject) : Doc := serialize (model o).

(** The [HttpRequest] that [request] builds: every argument left at
    [None] is taken from the configuration, the URL from [base_url]. *)
Definition HttpRequest_of (o : K8sObject) (method : string)
           (host url : option string) (auth cert : option (string * string))
           (data : option Doc) (token ca_cert ca_cert_data : option string)
  : HttpRequest :=
  let cfg := config o in
  let host := or_else host (K8sConfig.api_host cfg) in
  let url := or_else url (base_url o) in
  let auth := match auth with None => K8sConfig.auth cfg | Some _ => auth end in
  let cert := match cert with None => K8sConfig.cert cfg | Some _ => cert end in
  let token := match token with None => K8sConfig.token cfg | Some _ => token end in
  let ca_cert := match ca_cert with None => K8sConfig.ca_cert cfg | Some _ => ca_cert end in
  let ca_cert_data :=
      match ca_cert_data with None => K8sConfig.ca_cert_data cfg | Some _ => ca_cert_data end in
  Build_HttpRequest method host url auth cert ca_cert ca_cert_data data token.

(** [K8sObject.request]: an [IOError] of the transport becomes a
    [BadRequestException]. *)
Definition request (method : string) (host url : option string)
           (auth cert : option (string * string)) (data : option Doc)
           (token ca_cert ca_cert_data : option string) : M HttpState :=
  fun w =>
    let r := HttpRequest_of (self w) method host url auth cert data
                            token ca_cert ca_cert_data in
    let w' := Build_World (self w) (wire w ++ [r])%list in
    match send (wire w) r with
    | inr state => (inr state, w')
    | inl err =>
      (inl (Raise BadRequestException (Fmt "K8sObject: IOError: {0}" [JStr err])), w')
    end.

(** [state_data['message'] if 'message' in state_data else state_data],
    which raises TypeError on a body that is no container, and on a text
    or a list in which [in] finds "message". *)
Definition reason_or_data (state : HttpState) : Exn + Json :=
  match py_lookup "message" (data state) with
  | inl e => inl e
  | inr (Some m) => inr m
  | inr None => inr (data state)
  end.

(** [state.get('data', dict()).get('message', None)], which raises
    AttributeError on a body that is not a dict. *)
Definition reason_or_none (state : HttpState) : Exn + Json :=
  match py_get "message" (data state) with
  | inl e => inl e
  | inr (Some m) => inr m
  | inr None => inr JNull
  end.

(** [state.get('data', ...).get('items', list())], which raises
    AttributeError on a body that is not a dict. *)
Definition items_of (state : HttpState) : Exn + Json :=
  match py_get "items" (data state) with
  | inl e => inl e
  | inr (Some items) => inr items
  | inr None => inr (JList [])
  end.

(** [K8sObject.list] *)
Definition K8sObject_list : M Json :=
  state <- request "GET" None None None None None None None None ;;
  o <- get_self ;;
  if status state =? 0 then
    raise Exception
          (Fmt "K8sObject: Could not fetch list of objects of type: [ {0} ]"
               [JStr (obj_type o)])
  else if negb (success state) then
    reason <- lift (reason_or_data state) ;;
    let message := Fmt "K8sObject: CREATE failed : HTTP {0} : {1}"
                       [JNum (status state); reason] in
    if status state =? 401 then raise UnauthorizedException message
    else if status state =? 409 then raise AlreadyExistsException message
    else if status state =? 422 then raise UnprocessableEntityException message
    else raise BadRequestException message
  else
    lift (items_of state).

(** [K8sObject.get_model] *)
Definition K8sObject_get_model : M Json :=
  o <- get_self ;;
  match name o with
  | None =>
    raise SyntaxError
          (Fmt "K8sObject: name: [ {0} ] must be set to fetch the object." [JNull])
  | Some n =>
    let url := base_url o ++ "/" ++ n in
    state <- request "GET" None (Some url) None None None None None None ;;
    if negb (success state) then
      reason <- lift (reason_or_none state) ;;
      raise NotFoundException
            (Fmt "K8sObject: GET [ {0}:{1} ] failed: HTTP {2} : {3} "
                 [JStr (obj_type o); JStr n; JNum (status state); reason])
    else ret (data state)
  end.

(** [K8sObject.get_with_params]: the answer is read without a look at
    its success flag or its status. *)
Definition K8sObject_get_with_params (data : option Doc) : M Json :=
  if negb (is_valid_dict data) then
    raise SyntaxError
          (Fmt "K8sObject.get_with_params(): data: [ {0} ] is invalid."
               [match data with Some d => JDict d | None => JNull end])
  else
    o <- get_self ;;
    let url := base_url o in
    state <- request "GET" None (Some url) None None data None None None ;;
    lift (items_of state).

(** Clearing [resourceVersion] and [uid] in the held model. *)
Definition clear_resource_version (o : K8sObject) : K8sObject :=
  set_model
    (Model.set_metadata
       (ObjectMeta.set_resource_version None (Model.metadata (model o))) (model o)) o.

Definition clear_uid (o : K8sObject) : K8sObject :=
  set_model
    (Model.set_metadata (ObjectMeta.set_uid None (Model.metadata (model o))) (model o)) o.

(** [K8sObject.create]; the returned [self] is the object of the final
    state. *)
Definition K8sObject_create : M unit :=
  o <- get_self ;;
  match name o with
  | None =>
    raise SyntaxError
          (Fmt "K8sObject: name: [ {0} ] must be set to CREATE the object." [JNull])
  | Some _ =>
    match ObjectMeta.resource_version (Model.metadata (model o)) with
    | Some _ => put_self (clear_resource_version o)
    | None => ret tt
    end ;;;
    o <- get_self ;;
    let url := base_url o in
    state <- request "POST" None (Some url) None None
                     (Some (K8sObject_serialize o)) None None None ;;
    if negb (success state) then
      reason <- lift (reason_or_data state) ;;
      let message := Fmt "K8sObject: CREATE failed : HTTP {0} : {1}"
                         [JNum (status state); reason] in
      if status state =? 401 then raise UnauthorizedException message
      else if status state =? 409 then raise AlreadyExistsException message
      else if status state =? 422 then raise UnprocessableEntityException message
      else raise BadRequestException message
    else ret tt
  end.

(** [K8sObject.update] *)
Definition K8sObject_update : M unit :=
  o <- get_self ;;
  match name o with
  | None =>
    raise SyntaxError
          (Fmt "K8sObject: name: [ {0} ] must be set to UPDATE the object." [JNull])
  | Some _ =>
    match ObjectMeta.uid (Model.metadata (model o)) with
    | Some _ => put_self (clear_uid o)
    | None => ret tt
    end ;;;
    o <- get_self ;;
    (* [self.name] is read again here; [format] prints [None] as "None" *)
    let url := base_url o ++ "/" ++ or_else (name o) "None" in
    state <- request "PUT" None (Some url) None None
                     (Some (K8sObject_serialize o)) None None None ;;
    if negb (success state) then
      reason <- lift (reason_or_none state) ;;
      let message := Fmt "K8sObject: UPDATE failed: HTTP {0} : {1}"
                         [JNum (status state); reason] in
      if status state =? 404 then raise NotFoundException message
      else if status state =? 422 then raise UnprocessableEntityException message
      else raise BadRequestException message
    else ret tt
  end.

(** [K8sObject.delete] *)
Definition K8sObject_delete : M unit :=
  o <- get_self ;;
  match name o with
  | None =>
    raise SyntaxError
          (Fmt "K8sObject: name: [ {0} ] must be set to DELETE the object." [JNull])
  | Some n =>
    let url := base_url o ++ "/" ++ n in
    state <- request "DELETE" None (Some url) None None
                     (Some DeleteOptions_serialize) None None None ;;
    if negb (success state) then
      reason <- lift (reason_or_none state) ;;
      let message := Fmt "K8sObject: DELETE failed: HTTP {0} : {1}"
                         [JNum (status state); reason] in
      if status state =? 404 then raise NotFoundException message
      else raise BadRequestException message
    else ret tt
  end.

(** *** K8sHorizontalPodAutoscaler *)

Definition K8sHorizontalPodAutoscaler_init (config : option K8sConfig.t)
           (name : option string) : Exn + K8sObject :=
  K8sObject_init Cls_K8sHorizontalPodAutoscaler config
                 (Some "HorizontalPodAutoscaler") name.

Definition K8sHorizontalPodAutoscaler_get : M unit :=
  d <- K8sObject_get_model ;;
  m <- lift (HorizontalPodAutoscaler d) ;;
  o <- get_self ;;
  put_self (set_model m o).

Definition K8sHorizontalPodAutoscaler_create : M unit :=
  K8sObject_create ;;;
  K8sHorizontalPodAutoscaler_get.

Definition K8sHorizontalPodAutoscaler_update : M unit :=
  K8sObject_update ;;;
  K8sHorizontalPodAutoscaler_get.

(** The body of the [for] loop of [list]: wrap one document model. *)
Definition wrap_hpa (cfg : K8sConfig.t) (x : Model.t) : Exn + K8sObject :=
  match K8sHorizontalPodAutoscaler_init (Some cfg) (Model.name x) with
  | inl e => inl e
  | inr z => inr (set_model x z)
  end.

Definition K8sHorizontalPodAutoscaler_list (pattern : option string)
  : M (list K8sObject) :=
  ls <- K8sObject_list ;;
  items <- lift (py_iter ls) ;;
  hpas <- lift (map_exn HorizontalPodAutoscaler items) ;;
  hpas <- match pattern with
          | Some p => lift (filter_exn (name_matches p) hpas)
          | None => ret hpas
          end ;;
  o <- get_self ;;
  lift (map_exn (wrap_hpa (config o)) hpas).

(** *** K8sStatefulSet *)

Definition K8sStatefulSet_init (config : option K8sConfig.t)
           (name : option string) : Exn + K8sObject :=
  K8sObject_init Cls_K8sStatefulSet config (Some "StatefulSet") name.

Definition K8sStatefulSet_get : M unit :=
  d <- K8sObject_get_model ;;
  m <- lift (StatefulSet d) ;;
  o <- get_self ;;
  put_self (set_model m o).

Definition K8sStatefulSet_create : M unit :=
  K8sObject_create ;;;
  K8sStatefulSet_get.

Definition K8sStatefulSet_update : M unit :=
  K8sObject_update ;;;
  K8sStatefulSet_get.

(** *** The requests that the lifecycle methods send *)

Definition create_request (o : K8sObject) : HttpRequest :=
  let o' := clear_resource_version o in
  HttpRequest_of o' "POST" None (Some (base_url o')) None None
                 (Some (K8sObject_serialize o')) None None None.

Definition update_request (o : K8sObject) (n : string) : HttpRequest :=
  let o' := clear_uid o in
  HttpRequest_of o' "PUT" None (Some (base_url o' ++ "/" ++ n)) None None
                 (Some (K8sObject_serialize o')) None None None.

Definition delete_request (o : K8sObject) (n : string) : HttpRequest :=
  HttpRequest_of o "DELETE" None (Some (base_url o ++ "/" ++ n)) None None
                 (Some DeleteOptions_serialize) None None None.

Definition get_request (o : K8sObject) (n : string) : HttpRequest :=
  HttpRequest_of o "GET" None (Some (base_url o ++ "/" ++ n)) None None
                 None None None None.

Definition list_request (o : K8sObject) : HttpRequest :=
  HttpRequest_of o "GET" None None None None None None None None.

Definition params_request (o : K8sObject) (data : option Doc) : HttpRequest :=
  HttpRequest_of o "GET" None (Some (base_url o)) None None data None None None.

(** The part of the configuration that every request carries. *)
Definition carries_config (o : K8sObject) (r : HttpRequest) : Prop :=
  req_host r = K8sConfig.api_host (config o) /\
  req_auth r = K8sConfig.auth (config o) /\
  req_cert r = K8sConfig.cert (config o) /\
  req_token r = K8sConfig.token (config o) /\
  req_ca_cert r = K8sConfig.ca_cert (config o) /\
  req_ca_cert_data r = K8sConfig.ca_cert_data (config o).

(** What no method changes: class, configuration, kind and base URL. *)
Definition same_identity (o o' : K8sObject) : Prop :=
  cls o' = cls o /\ config o' = config o /\
  obj_type o' = obj_type o /\ base_url o' = base_url o.

(** A world [w'] that a method may leave when started in [w]: the same
    object up to its document model, and the log of [w] followed by
    requests that carry the configuration. *)
Definition evolves (w w' : World) : Prop :=
  same_identity (self w) (self w') /\
  exists rs, wire w' = (wire w ++ rs)%list /\ Forall (carries_config (self w)) rs.

(** *** Properties *)

Ltac run :=
  unfold K8sHorizontalPodAutoscaler_create, K8sHorizontalPodAutoscaler_update,
         K8sStatefulSet_create, K8sStatefulSet_update,
         K8sHorizontalPodAutoscaler_get, K8sStatefulSet_get,
         K8sObject_create, K8sObject_update, K8sObject_delete,
         K8sObject_get_model, K8sObject_list,
         bind, ret, raise, lift, get_self, put_self, request;
  cbn [self wire fst snd].

Lemma clear_resource_version_noop (o : K8sObject) :
  ObjectMeta.resource_version (Model.metadata (model o)) = None ->
  clear_resource_version o = o.
Proof.
  destruct o as [c cfg ty [k v [n ns rv u ot] sp st] url]; cbn.
  intros ->. reflexivity.
Qed.

Lemma clear_uid_noop (o : K8sObject) :
  ObjectMeta.uid (Model.metadata (model o)) = None -> clear_uid o = o.
Proof.
  destruct o as [c cfg ty [k v [n ns rv u ot] sp st] url]; cbn.
  intros ->. reflexivity.
Qed.

Ltac branches :=
  repeat (match goal with
          | |- context [if ?b then _ else _] => destruct b
          end);
  reflexivity.

(** After the answer [st] has been substituted: the success flag, the
    reason read from the body, then the status tests. *)
Ltac answered st :=
  destruct (success st); cbn; [reflexivity|];
  try destruct (reason_or_data st); try destruct (reason_or_none st);
  cbn; branches.

(** The reasons on a body that is a dict, and on one that is not. *)
Lemma reason_or_data_dict (st : HttpState) (d : Doc) :
  data st = JDict d ->
  reason_or_data st
  = inr (match dict_get "message" d with
         | Some m => m
         | None => JDict d
         end).
Proof.
  unfold reason_or_data. intros ->. cbn. destruct (dict_get "message" d); reflexivity.
Qed.

Lemma reason_or_none_dict (st : HttpState) (d : Doc) :
  data st = JDict d ->
  reason_or_none st
  = inr (match dict_get "message" d with
         | Some m => m
         | None => JNull
         end).
Proof.
  unfold reason_or_none. intros ->. cbn. destruct (dict_get "message" d); reflexivity.
Qed.

Lemma reason_or_none_other (st : HttpState) :
  is_dict (data st) = false ->
  reason_or_none st
  = inl (Raise AttributeError (Fmt "object has no attribute 'get'" [])).
Proof.
  unfold reason_or_none. destruct (data st); cbn; intros H;
    first [reflexivity | discriminate H].
Qed.

Lemma items_of_other (st : HttpState) :
  is_dict (data st) = false ->
  items_of st = inl (Raise AttributeError (Fmt "object has no attribute 'get'" [])).
Proof.
  unfold items_of. destruct (data st); cbn; intros H;
    first [reflexivity | discriminate H].
Qed.

Lemma items_of_dict (st : HttpState) (d : Doc) :
  data st = JDict d ->
  items_of st
  = inr (match dict_get "items" d with
         | Some items => items
         | None => JList []
         end).
Proof.
  unfold items_of. intros ->. cbn. destruct (dict_get "items" d); reflexivity.
Qed.

(** What each method does once the name is known to be set: the world
    it leaves, and its result as a function of the transport's answer. *)
Lemma create_world (o : K8sObject) (log : list HttpRequest) (n : string) :
  name o = Some n ->
  snd (K8sObject_create (Build_World o log))
  = Build_World (clear_resource_version o) (log ++ [create_request o]).
Proof.
  intros Hn. run. rewrite Hn. unfold create_request.
  destruct (ObjectMeta.resource_version (Model.metadata (model o))) eqn:Hv;
    cbn [self wire fst snd];
    [|rewrite (clear_resource_version_noop o Hv)];
    (destruct (send log _) as [err|st]; [reflexivity|]);
    answered st.
Qed.

Lemma create_result (o : K8sObject) (log : list HttpRequest) (n : string)
      (st : HttpState) :
  name o = Some n ->
  send log (create_request o) = inr st ->
  fst (K8sObject_create (Build_World o log))
  = if success st then inr tt
    else
      match reason_or_data st with
      | inl e => inl e
      | inr reason =>
        let message := Fmt "K8sObject: CREATE failed : HTTP {0} : {1}"
                           [JNum (status st); reason] in
        inl (Raise (if status st =? 401 then UnauthorizedException
                    else if status st =? 409 then AlreadyExistsException
                    else if status st =? 422 then UnprocessableEntityException
                    else BadRequestException) message)
      end.
Proof.
  intros Hn. run. rewrite Hn. unfold create_request.
  destruct (ObjectMeta.resource_version (Model.metadata (model o))) eqn:Hv;
    cbn [self wire fst snd];
    [|rewrite (clear_resource_version_noop o Hv)];
    intros ->; answered st.
Qed.

Lemma update_world (o : K8sObject) (log : list HttpRequest) (n : string) :
  name o = Some n ->
  snd (K8sObject_update (Build_World o log))
  = Build_World (clear_uid o) (log ++ [update_request o n]).
Proof.
  intros Hn. run. rewrite Hn. unfold update_request.
  assert (Hn' : name (clear_uid o) = Some n) by (rewrite <- Hn; reflexivity).
  destruct (ObjectMeta.uid (Model.metadata (model o))) eqn:Hu;
    cbn [self wire fst snd].
  - rewrite Hn'. cbn [or_else].
    destruct (send log _) as [err|st]; [reflexivity|]. answered st.
  - rewrite (clear_uid_noop o Hu), Hn. cbn [or_else].
    destruct (send log _) as [err|st]; [reflexivity|]. answered st.
Qed.

Lemma update_result (o : K8sObject) (log : list HttpRequest) (n : string)
      (st : HttpState) :
  name o = Some n ->
  send log (update_request o n) = inr st ->
  fst (K8sObject_update (Build_World o log))
  = if success st then inr tt
    else
      match reason_or_none st with
      | inl e => inl e
      | inr reason =>
        let message := Fmt "K8sObject: UPDATE failed: HTTP {0} : {1}"
                           [JNum (status st); reason] in
        inl (Raise (if status st =? 404 then NotFoundException
                    else if status st =? 422 then UnprocessableEntityException
                    else BadRequestException) message)
      end.
Proof.
  intros Hn. run. rewrite Hn. unfold update_request.
  assert (Hn' : name (clear_uid o) = Some n) by (rewrite <- Hn; reflexivity).
  destruct (ObjectMeta.uid (Model.metadata (model o))) eqn:Hu;
    cbn [self wire fst snd].
  - rewrite Hn'. cbn [or_else]. intros ->. answered st.
  - rewrite (clear_uid_noop o Hu), Hn. cbn [or_else]. intros ->. answered st.
Qed.

Lemma delete_world (o : K8sObject) (log : list HttpRequest) (n : string) :
  name o = Some n ->
  snd (K8sObject_delete (Build_World o log))
  = Build_World o (log ++ [delete_request o n]).
Proof.
  intros Hn. run. rewrite Hn. cbn [self wire fst snd]. unfold delete_request.
  destruct (send log _) as [err|st]; [reflexivity|]. answered st.
Qed.

Lemma delete_result (o : K8sObject) (log : list HttpRequest) (n : string)
      (st : HttpState) :
  name o = Some n ->
  send log (delete_request o n) = inr st ->
  fst (K8sObject_delete (Build_World o log))
  = if success st then inr tt
    else
      match reason_or_none st with
      | inl e => inl e
      | inr reason =>
        let message := Fmt "K8sObject: DELETE failed: HTTP {0} : {1}"
                           [JNum (status st); reason] in
        inl (Raise (if status st =? 404 then NotFoundException
                    else BadRequestException) message)
      end.
Proof.
  intros Hn. run. rewrite Hn. cbn [self wire fst snd]. unfold delete_request.
  intros ->; answered st.
Qed.

Lemma get_model_run (o : K8sObject) (log : list HttpRequest) (n : string)
      (st : HttpState) :
  name o = Some n ->
  send log (get_request o n) = inr st ->
  K8sObject_get_model (Build_World o log)
  = (if success st then inr (data st)
     else
       match reason_or_none st with
       | inl e => inl e
       | inr reason =>
         inl (Raise NotFoundException
                (Fmt "K8sObject: GET [ {0}:{1} ] failed: HTTP {2} : {3} "
                     [JStr (obj_type o); JStr n; JNum (status st); reason]))
       end,
     Build_World o (log ++ [get_request o n])).
Proof.
  intros Hn. run. rewrite Hn. cbn [self wire fst snd]. unfold get_request.
  intros ->; destruct (success st); cbn; [reflexivity|].
  destruct (reason_or_none st); reflexivity.
Qed.

Lemma list_run (o : K8sObject) (log : list HttpRequest) (st : HttpState) :
  send log (list_request o) = inr st ->
  K8sObject_list (Build_World o log)
  = (if status st =? 0 then
       inl (Raise Exception
              (Fmt "K8sObject: Could not fetch list of objects of type: [ {0} ]"
                   [JStr (obj_type o)]))
     else if success st then items_of st
     else
       match reason_or_data st with
       | inl e => inl e
       | inr reason =>
         let message := Fmt "K8sObject: CREATE failed : HTTP {0} : {1}"
                            [JNum (status st); reason] in
         inl (Raise (if status st =? 401 then UnauthorizedException
                     else if status st =? 409 then AlreadyExistsException
                     else if status st =? 422 then UnprocessableEntityException
                     else BadRequestException) message)
       end,
     Build_World o (log ++ [list_request o])).
Proof.
  run. unfold list_request. intros ->.
  destruct (status st =? 0); [reflexivity|]. answered st.
Qed.

(** The constructor rejects every kind that the table does not list. *)
Lemma K8sObject_init_unlisted (c : K8sClass) (cfg : K8sConfig.t)
      (ty name : option string) :
  in_VALID_K8s_OBJS ty = false ->
  K8sObject_init c (Some cfg) ty name = inl (kind_error ty).
Proof.
  intros H. unfold K8sObject_init. rewrite H. reflexivity.
Qed.

(** C3. A resource object whose name is unset: create(), update() and
    delete(), and the overriding create() and update() of the two
    wrappers, fail with the invalid-state error (SyntaxError) and leave
    the world as it was: no request reaches the transport and the object
    is untouched. *)
Theorem unset_name_is_invalid_state (o : K8sObject) (log : list HttpRequest) :
  name o = None ->
  let w := Build_World o log in
  let err op :=
      Raise SyntaxError
            (Fmt ("K8sObject: name: [ {0} ] must be set to " ++ op ++ " the object.")
                 [JNull]) in
  K8sObject_create w = (inl (err "CREATE"), w) /\
  K8sObject_update w = (inl (err "UPDATE"), w) /\
  K8sObject_delete w = (inl (err "DELETE"), w) /\
  K8sHorizontalPodAutoscaler_create w = (inl (err "CREATE"), w) /\
  K8sHorizontalPodAutoscaler_update w = (inl (err "UPDATE"), w) /\
  K8sStatefulSet_create w = (inl (err "CREATE"), w) /\
  K8sStatefulSet_update w = (inl (err "UPDATE"), w).
Proof.
  intros Hn w err. subst w err.
  repeat split; run; rewrite Hn; reflexivity.
Qed.

(** C5. create() on an object with name set and a non-null
    resource-version sends exactly one request, an HTTP POST to the
    collection URL, whose payload is the serialization of the model with
    resource-version set to None. *)
Theorem create_payload_has_no_resource_version
        (o : K8sObject) (log : list HttpRequest) (n v : string) :
  name o = Some n ->
  ObjectMeta.resource_version (Model.metadata (model o)) = Some v ->
  let r := create_request o in
  let cleared :=
      Model.set_metadata
        (ObjectMeta.set_resource_version None (Model.metadata (model o))) (model o) in
  wire (snd (K8sObject_create (Build_World o log))) = (log ++ [r])%list /\
  req_method r = "POST" /\
  req_url r = base_url o /\
  req_data r = Some (serialize cleared) /\
  ObjectMeta.resource_version (Model.metadata cleared) = None.
Proof.
  intros Hn Hv r cleared.
  rewrite (create_world o log n Hn). repeat split.
Qed.

(** C6. update() on an object with name set and a non-null UID sends
    exactly one request, an HTTP PUT to the URL of the object, whose
    payload is the serialization of the model with UID set to None. *)
Theorem update_payload_has_no_uid
        (o : K8sObject) (log : list HttpRequest) (n u : string) :
  name o = Some n ->
  ObjectMeta.uid (Model.metadata (model o)) = Some u ->
  let r := update_request o n in
  let cleared :=
      Model.set_metadata (ObjectMeta.set_uid None (Model.metadata (model o))) (model o) in
  wire (snd (K8sObject_update (Build_World o log))) = (log ++ [r])%list /\
  req_method r = "PUT" /\
  req_url r = base_url o ++ "/" ++ n /\
  req_data r = Some (serialize cleared) /\
  ObjectMeta.uid (Model.metadata cleared) = None.
Proof.
  intros Hn Hu r cleared.
  rewrite (update_world o log n Hn). repeat split.
Qed.

(** C7, on the code.  create() with name set, on a non-success response,
    reads the reason out of the body before it looks at the status.  When
    the body is None, that read raises TypeError, whatever the status:
    a 409, 422 or 401 without a body is not classified.  When the body is
    a JSON object, status 409 raises AlreadyExistsException, 422
    UnprocessableEntityException, 401 UnauthorizedException, and every
    other status BadRequestException. *)
Theorem create_error_classification
        (o : K8sObject) (log : list HttpRequest) (n : string) (st : HttpState) :
  name o = Some n ->
  send log (create_request o) = inr st ->
  success st = false ->
  let r := fst (K8sObject_create (Build_World o log)) in
  (data st = JNull -> raised r = Some TypeError) /\
  (forall d, data st = JDict d ->
     (status st = 409 -> raised r = Some AlreadyExistsException) /\
     (status st = 422 -> raised r = Some UnprocessableEntityException) /\
     (status st = 401 -> raised r = Some UnauthorizedException) /\
     (status st <> 409 -> status st <> 422 -> status st <> 401 ->
      raised r = Some BadRequestException)).
Proof.
  intros Hn Hs Hf r. subst r.
  rewrite (create_result o log n st Hn Hs), Hf. split.
  - intros Hd. unfold reason_or_data. rewrite Hd. reflexivity.
  - intros d Hd. rewrite (reason_or_data_dict st d Hd). cbn.
    repeat split.
    + intros ->. reflexivity.
    + intros ->. reflexivity.
    + intros ->. reflexivity.
    + intros H409 H422 H401.
      destruct (Z.eqb_spec (status st) 401); [contradiction|].
      destruct (Z.eqb_spec (status st) 409); [contradiction|].
      destruct (Z.eqb_spec (status st) 422); [contradiction|].
      reflexivity.
Qed.

(** C10. create() with name set whose response is non-success raises,
    and the held model is left with resource-version None and every
    other field as before; nothing else of the object changes.  The
    overriding create() of the two wrappers ends the same way. *)
Theorem create_failure_keeps_cleared_resource_version
        (o : K8sObject) (log : list HttpRequest) (n : string) (st : HttpState) :
  name o = Some n ->
  send log (create_request o) = inr st ->
  success st = false ->
  let w := Build_World o log in
  let o' := self (snd (K8sObject_create w)) in
  let md := Model.metadata (model o) in
  let md' := Model.metadata (model o') in
  (exists e, fst (K8sObject_create w) = inl e) /\
  ObjectMeta.resource_version md' = None /\
  ObjectMeta.name md' = ObjectMeta.name md /\
  ObjectMeta.namespace md' = ObjectMeta.namespace md /\
  ObjectMeta.uid md' = ObjectMeta.uid md /\
  ObjectMeta.other md' = ObjectMeta.other md /\
  Model.kind (model o') = Model.kind (model o) /\
  Model.api_version (model o') = Model.api_version (model o) /\
  Model.spec (model o') = Model.spec (model o) /\
  Model.status (model o') = Model.status (model o) /\
  cls o' = cls o /\ config o' = config o /\
  obj_type o' = obj_type o /\ base_url o' = base_url o /\
  K8sHorizontalPodAutoscaler_create w = K8sObject_create w /\
  K8sStatefulSet_create w = K8sObject_create w.
Proof.
  intros Hn Hs Hf w o' md md'. subst o' md md' w.
  assert (Hr : exists e, fst (K8sObject_create (Build_World o log)) = inl e).
  { rewrite (create_result o log n st Hn Hs), Hf.
    destruct (reason_or_data st); eexists; reflexivity. }
  destruct Hr as [e0 Hr].
  rewrite (create_world o log n Hn). cbn [self].
  split; [eexists; exact Hr|].
  repeat (split; [reflexivity|]).
  unfold K8sHorizontalPodAutoscaler_create, K8sStatefulSet_create, bind.
  revert Hr.
  destruct (K8sObject_create (Build_World o log)) as [[e|a] w']; cbn.
  - split; reflexivity.
  - discriminate.
Qed.

(** C4, on the code.  get() on a 404 response, with a document model
    already held, for the get() of both wrappers: the call raises and the
    object, its document model included, is what it was before the call.
    The exception is NotFoundException when the body of the response is a
    JSON object.  When the body is None or text, reading the reason out
    of it raises AttributeError first, so the call does not end with
    not-found. *)
Theorem get_not_found_keeps_model
        (o : K8sObject) (log : list HttpRequest) (n : string) (st : HttpState) :
  name o = Some n ->
  send log (get_request o n) = inr st ->
  success st = false ->
  status st = 404 ->
  let hpa := K8sHorizontalPodAutoscaler_get (Build_World o log) in
  let sts := K8sStatefulSet_get (Build_World o log) in
  let expected :=
      if is_dict (data st) then NotFoundException else AttributeError in
  raised (fst hpa) = Some expected /\
  self (snd hpa) = o /\ model (self (snd hpa)) = model o /\
  raised (fst sts) = Some expected /\
  self (snd sts) = o /\ model (self (snd sts)) = model o.
Proof.
  intros Hn Hs Hf H404 hpa sts expected. subst hpa sts expected.
  unfold K8sHorizontalPodAutoscaler_get, K8sStatefulSet_get, bind.
  rewrite (get_model_run o log n st Hn Hs), Hf.
  destruct (is_dict (data st)) eqn:Hd.
  - destruct (data st) as [| | | | |d] eqn:Hb; try discriminate Hd.
    rewrite (reason_or_none_dict st d Hb). cbn. repeat split.
  - rewrite (reason_or_none_other st Hd). cbn. repeat split.
Qed.



Lemma opt_str_eqb_eq (a b : option string) : opt_str_eqb a b = true <-> a = b.
Proof.
  destruct a as [x|], b as [y|]; cbn; try (split; congruence).
  rewrite String.eqb_eq. split; congruence.
Qed.

(** C9, as the code has it.  Two resource objects compare equal exactly
    when one of them is an instance of the other's class and both the
    namespaces of their configurations and their names match.  Nothing
    else of the held document takes part. *)
Theorem eq_iff_related_class_namespace_name (a b : K8sObject) :
  py_eq a b = true <->
  (isinstance b (cls a) = true \/ isinstance a (cls b) = true) /\
  K8sConfig.namespace (config a) = K8sConfig.namespace (config b) /\
  name a = name b.
Proof.
  unfold py_eq, K8sObject_eq.
  destruct (isinstance b (cls a)) eqn:Hba.
  - rewrite andb_true_iff, String.eqb_eq, opt_str_eqb_eq. tauto.
  - destruct (isinstance a (cls b)) eqn:Hab.
    + rewrite andb_true_iff, String.eqb_eq, opt_str_eqb_eq.
      split.
      * intros [H1 H2]. auto.
      * intros (_ & H1 & H2). auto.
    + split; [discriminate|].
      intros ([H|H] & _); discriminate.
Qed.

(** C1, as the code has it.  Whatever the configuration and the name,
    constructing either wrapper raises SyntaxError at the kind check of
    K8sObject.__init__: neither kind is in VALID_K8s_OBJS.  No base URL
    is computed and no object is returned, also when the configuration
    is left to its default. *)
Theorem wrapper_constructors_raise (cfg : K8sConfig.t) (n : option string) :
  K8sHorizontalPodAutoscaler_init (Some cfg) n
  = inl (Raise SyntaxError
           (Fmt "K8sObject: obj_type: [ {0} ] must be in: [ {1} ]"
                [JStr "HorizontalPodAutoscaler";
                 JStr (String.concat ", " VALID_K8s_OBJS)])) /\
  K8sStatefulSet_init (Some cfg) n
  = inl (Raise SyntaxError
           (Fmt "K8sObject: obj_type: [ {0} ] must be in: [ {1} ]"
                [JStr "StatefulSet"; JStr (String.concat ", " VALID_K8s_OBJS)])) /\
  (exists e, K8sHorizontalPodAutoscaler_init None n = inl e) /\
  (exists e, K8sStatefulSet_init None n = inl e).
Proof.
  unfold K8sHorizontalPodAutoscaler_init, K8sStatefulSet_init.
  rewrite !K8sObject_init_unlisted by reflexivity.
  repeat split; unfold K8sObject_init;
    destruct K8sConfig_default; eexists; reflexivity.
Qed.

(** The loop of [K8sHorizontalPodAutoscaler.list] stops at its first
    item, in the constructor of the wrapper. *)
Lemma wrap_hpa_raises (cfg : K8sConfig.t) (x : Model.t) :
  wrap_hpa cfg x = inl (kind_error (Some "HorizontalPodAutoscaler")).
Proof.
  unfold wrap_hpa, K8sHorizontalPodAutoscaler_init.
  rewrite K8sObject_init_unlisted by reflexivity. reflexivity.
Qed.

Lemma map_wrap_hpa (cfg : K8sConfig.t) (hpas : list Model.t) :
  map_exn (wrap_hpa cfg) hpas
  = match hpas with
    | [] => inr []
    | _ :: _ => inl (kind_error (Some "HorizontalPodAutoscaler"))
    end.
Proof.
  destruct hpas as [|x hpas]; cbn [map_exn]; [reflexivity|].
  rewrite wrap_hpa_raises. reflexivity.
Qed.

(** Hence [list] returns no wrapper at all: whenever it returns, the
    list it returns is empty. *)
Lemma hpa_list_returns_nothing (pattern : option string) (w : World)
      (zs : list K8sObject) :
  fst (K8sHorizontalPodAutoscaler_list pattern w) = inr zs -> zs = [].
Proof.
  unfold K8sHorizontalPodAutoscaler_list, bind, lift, ret, get_self.
  destruct (K8sObject_list w) as [[e|ls] w1]; cbn; [discriminate|].
  destruct (py_iter ls) as [e|items]; cbn; [discriminate|].
  destruct (map_exn HorizontalPodAutoscaler items) as [e|hpas]; cbn; [discriminate|].
  destruct pattern as [p|]; cbn.
  - destruct (filter_exn (name_matches p) hpas) as [e|hpas']; cbn; [discriminate|].
    rewrite map_wrap_hpa. destruct hpas'; congruence.
  - rewrite map_wrap_hpa. destruct hpas; congruence.
Qed.

(** *** Further properties of K8sObject *)

Lemma create_run_ok (o : K8sObject) (log : list HttpRequest) (n : string)
      (st : HttpState) :
  name o = Some n ->
  send log (create_request o) = inr st ->
  success st = true ->
  K8sObject_create (Build_World o log)
  = (inr tt, Build_World (clear_resource_version o) (log ++ [create_request o])).
Proof.
  intros Hn Hs Hok.
  rewrite (surjective_pairing (K8sObject_create (Build_World o log))).
  rewrite (create_world o log n Hn), (create_result o log n st Hn Hs), Hok.
  reflexivity.
Qed.

Lemma update_run_ok (o : K8sObject) (log : list HttpRequest) (n : string)
      (st : HttpState) :
  name o = Some n ->
  send log (update_request o n) = inr st ->
  success st = true ->
  K8sObject_update (Build_World o log)
  = (inr tt, Build_World (clear_uid o) (log ++ [update_request o n])).
Proof.
  intros Hn Hs Hok.
  rewrite (surjective_pairing (K8sObject_update (Build_World o log))).
  rewrite (update_world o log n Hn), (update_result o log n st Hn Hs), Hok.
  reflexivity.
Qed.

(** What [request] does to the world, whatever the transport answers. *)
Lemma request_world (w : World) (method : string) (host url : option string)
      (auth cert : option (string * string)) (data : option Doc)
      (token ca_cert ca_cert_data : option string) :
  snd (request method host url auth cert data token ca_cert ca_cert_data w)
  = Build_World (self w)
      (wire w ++ [HttpRequest_of (self w) method host url auth cert data
                                 token ca_cert ca_cert_data]).
Proof.
  unfold request. destruct (send (wire w) _); reflexivity.
Qed.

(** With the name unset, get_model() and the get() of both wrappers fail
    with SyntaxError; no request is sent and the object is untouched. *)
Theorem get_unset_name_is_invalid_state (o : K8sObject) (log : list HttpRequest) :
  name o = None ->
  let w := Build_World o log in
  let err :=
      Raise SyntaxError
            (Fmt "K8sObject: name: [ {0} ] must be set to fetch the object." [JNull]) in
  K8sObject_get_model w = (inl err, w) /\
  K8sHorizontalPodAutoscaler_get w = (inl err, w) /\
  K8sStatefulSet_get w = (inl err, w).
Proof.
  intros Hn w err. subst w err.
  repeat split; run; rewrite Hn; reflexivity.
Qed.

(** A transport that raises IOError: create(), update(), delete(),
    get_model() and list() all fail with BadRequestException, whose text
    carries the text of the IOError; get_model() does not turn it into
    NotFoundException. *)
Theorem io_error_is_bad_request
        (o : K8sObject) (log : list HttpRequest) (n err : string) :
  name o = Some n ->
  (forall r, send log r = inl err) ->
  let w := Build_World o log in
  let bad := Raise BadRequestException (Fmt "K8sObject: IOError: {0}" [JStr err]) in
  fst (K8sObject_create w) = inl bad /\
  fst (K8sObject_update w) = inl bad /\
  fst (K8sObject_delete w) = inl bad /\
  fst (K8sObject_get_model w) = inl bad /\
  fst (K8sObject_list w) = inl bad /\
  fst (K8sHorizontalPodAutoscaler_get w) = inl bad /\
  fst (K8sStatefulSet_get w) = inl bad.
Proof.
  intros Hn Hs w bad. subst w bad.
  assert (Hn' : name (clear_uid o) = Some n) by (rewrite <- Hn; reflexivity).
  repeat split; run; rewrite ?Hn; cbn [self wire fst snd];
    try (destruct (ObjectMeta.resource_version (Model.metadata (model o)));
         cbn [self wire fst snd]);
    try (destruct (ObjectMeta.uid (Model.metadata (model o)));
         cbn [self wire fst snd]);
    rewrite ?Hn', ?Hn; rewrite Hs; reflexivity.
Qed.

Lemma get_model_world (o : K8sObject) (log : list HttpRequest) (n : string) :
  name o = Some n ->
  snd (K8sObject_get_model (Build_World o log))
  = Build_World o (log ++ [get_request o n]).
Proof.
  intros Hn. run. rewrite Hn. cbn [self wire fst snd]. unfold get_request.
  destruct (send log _) as [err|st]; [reflexivity|].
  destruct (success st); cbn; [reflexivity|].
  destruct (reason_or_none st); reflexivity.
Qed.

Lemma list_world (o : K8sObject) (log : list HttpRequest) :
  snd (K8sObject_list (Build_World o log))
  = Build_World o (log ++ [list_request o]).
Proof.
  run. unfold list_request.
  destruct (send log _) as [err|st]; [reflexivity|]. cbn.
  destruct (status st =? 0); [reflexivity|]. answered st.
Qed.

Lemma unset_name_world (o : K8sObject) (log : list HttpRequest) :
  name o = None ->
  let w := Build_World o log in
  snd (K8sObject_create w) = w /\ snd (K8sObject_update w) = w /\
  snd (K8sObject_delete w) = w /\ snd (K8sObject_get_model w) = w.
Proof.
  intros Hn w. subst w. repeat split; run; rewrite Hn; reflexivity.
Qed.

(** delete(), get_model() and list() never modify the object, whatever
    the transport does.  create() changes at most the resource version of
    the held model, and update() at most its UID, in both cases only when
    the name is set; this holds on success, on an error response and on an
    IOError alike. *)
Theorem lifecycle_frame (o : K8sObject) (log : list HttpRequest) :
  let w := Build_World o log in
  self (snd (K8sObject_delete w)) = o /\
  self (snd (K8sObject_get_model w)) = o /\
  self (snd (K8sObject_list w)) = o /\
  self (snd (K8sObject_create w))
  = match name o with
    | Some _ => clear_resource_version o
    | None => o
    end /\
  self (snd (K8sObject_update w))
  = match name o with
    | Some _ => clear_uid o
    | None => o
    end.
Proof.
  intros w. subst w. rewrite list_world.
  destruct (name o) as [n|] eqn:Hn.
  - rewrite (delete_world o log n Hn), (get_model_world o log n Hn),
      (create_world o log n Hn), (update_world o log n Hn).
    repeat split.
  - destruct (unset_name_world o log Hn) as (Hc & Hu & Hd & Hg).
    rewrite Hc, Hu, Hd, Hg. repeat split.
Qed.

(** With the name set, delete() sends exactly one request, a DELETE to
    base_url/name with the serialized delete options as its body, and
    get_model() exactly one GET to base_url/name without a body; list()
    sends exactly one GET to the collection URL without a body, name set
    or not. *)
Theorem delete_get_list_requests
        (o : K8sObject) (log : list HttpRequest) (n : string) :
  name o = Some n ->
  let w := Build_World o log in
  let d := delete_request o n in
  let g := get_request o n in
  let l := list_request o in
  wire (snd (K8sObject_delete w)) = (log ++ [d])%list /\
  wire (snd (K8sObject_get_model w)) = (log ++ [g])%list /\
  wire (snd (K8sObject_list w)) = (log ++ [l])%list /\
  (req_method d = "DELETE" /\ req_url d = base_url o ++ "/" ++ n /\
   req_data d = Some DeleteOptions_serialize) /\
  (req_method g = "GET" /\ req_url g = base_url o ++ "/" ++ n /\ req_data g = None) /\
  (req_method l = "GET" /\ req_url l = base_url o /\ req_data l = None).
Proof.
  intros Hn w d g l. subst w d g l.
  rewrite (delete_world o log n Hn), (get_model_world o log n Hn), list_world.
  repeat split.
Qed.

(** With the name set and an answer from the transport, whatever its
    body: create(), update() and delete() return exactly when the success
    flag is set, and get_model() then returns the body of the answer as it
    is; the status code plays no part in that.  list() returns exactly
    when the flag is set, the status is not 0 and the body is a JSON
    object: on any other body of a successful answer it raises
    AttributeError. *)
Theorem success_flag_decides
        (o : K8sObject) (log : list HttpRequest) (n : string) (st : HttpState) :
  name o = Some n ->
  (forall r, send log r = inr st) ->
  let w := Build_World o log in
  (fst (K8sObject_create w) = inr tt <-> success st = true) /\
  (fst (K8sObject_update w) = inr tt <-> success st = true) /\
  (fst (K8sObject_delete w) = inr tt <-> success st = true) /\
  (fst (K8sObject_get_model w) = inr (data st) <-> success st = true) /\
  ((exists items, fst (K8sObject_list w) = inr items)
   <-> status st <> 0 /\ success st = true /\ is_dict (data st) = true) /\
  (status st <> 0 -> success st = true -> is_dict (data st) = false ->
   raised (fst (K8sObject_list w)) = Some AttributeError).
Proof.
  intros Hn Hs w. subst w.
  rewrite (create_result o log n st Hn (Hs _)).
  rewrite (update_result o log n st Hn (Hs _)).
  rewrite (delete_result o log n st Hn (Hs _)).
  rewrite (get_model_run o log n st Hn (Hs _)).
  rewrite (list_run o log st (Hs _)). cbn [fst].
  repeat (match goal with |- _ /\ _ => split end).
  - destruct (success st); [split; intros _; reflexivity|].
    destruct (reason_or_data st); split; discriminate.
  - destruct (success st); [split; intros _; reflexivity|].
    destruct (reason_or_none st); split; discriminate.
  - destruct (success st); [split; intros _; reflexivity|].
    destruct (reason_or_none st); split; discriminate.
  - destruct (success st); [split; intros _; reflexivity|].
    destruct (reason_or_none st); split; discriminate.
  - destruct (Z.eqb_spec (status st) 0) as [H0|H0].
    { split; [intros [items H]; discriminate | intros [H _]; contradiction]. }
    destruct (success st).
    + destruct (is_dict (data st)) eqn:Hd.
      * destruct (data st) as [| | | | |d] eqn:Hb; try discriminate Hd.
        rewrite (items_of_dict st d Hb).
        split; [intros _; repeat split; assumption | intros _; eexists; reflexivity].
      * rewrite (items_of_other st Hd).
        split; [intros [items H]; discriminate | intros (_ & _ & H); discriminate].
    + split; [|intros (_ & H & _); discriminate].
      intros [items H]. destruct (reason_or_data st); discriminate.
  - intros H0 Hok Hd. apply Z.eqb_neq in H0. rewrite H0, Hok.
    rewrite (items_of_other st Hd). reflexivity.
Qed.

(** What a wrapper's [get] does after a given answer, for either document
    model constructor. *)
Lemma get_run (build : Json -> Exn + Model.t) (o : K8sObject)
      (log : list HttpRequest) (n : string) (st : HttpState) :
  name o = Some n ->
  send log (get_request o n) = inr st ->
  (d <- K8sObject_get_model ;;
   m <- lift (build d) ;;
   o <- get_self ;;
   put_self (set_model m o)) (Build_World o log)
  = let log' := (log ++ [get_request o n])%list in
    if success st then
      match build (data st) with
      | inr m => (inr tt, Build_World (set_model m o) log')
      | inl e => (inl e, Build_World o log')
      end
    else
      (match data st with
       | JDict d =>
         inl (Raise NotFoundException
                (Fmt "K8sObject: GET [ {0}:{1} ] failed: HTTP {2} : {3} "
                     [JStr (obj_type o); JStr n; JNum (status st);
                      match dict_get "message" d with
                      | Some m => m
                      | None => JNull
                      end]))
       | _ => inl (Raise AttributeError (Fmt "object has no attribute 'get'" []))
       end,
       Build_World o log').
Proof.
  intros Hn Hs. unfold bind at 1.
  rewrite (get_model_run o log n st Hn Hs).
  destruct (success st).
  - unfold bind, lift, get_self, put_self.
    destruct (build (data st)); reflexivity.
  - unfold reason_or_none, py_get.
    destruct (data st); cbn; try reflexivity.
    destruct (dict_get "message" d); reflexivity.
Qed.

(** get() of either wrapper on a successful answer: the held model is
    replaced by the document model built from the body of the answer and
    nothing else of the object changes; when the constructor of the
    document model raises, that exception is the result and the held model
    stays. *)
Theorem get_replaces_model
        (o : K8sObject) (log : list HttpRequest) (n : string) (st : HttpState) :
  name o = Some n ->
  send log (get_request o n) = inr st ->
  success st = true ->
  let w := Build_World o log in
  let log' := (log ++ [get_request o n])%list in
  K8sHorizontalPodAutoscaler_get w
  = match HorizontalPodAutoscaler (data st) with
    | inr m => (inr tt, Build_World (set_model m o) log')
    | inl e => (inl e, Build_World o log')
    end /\
  K8sStatefulSet_get w
  = match StatefulSet (data st) with
    | inr m => (inr tt, Build_World (set_model m o) log')
    | inl e => (inl e, Build_World o log')
    end.
Proof.
  intros Hn Hs Hok w log'. subst w log'.
  unfold K8sHorizontalPodAutoscaler_get, K8sStatefulSet_get.
  rewrite !(get_run _ o log n st Hn Hs), Hok. split; reflexivity.
Qed.

(** create() of either wrapper, once the POST has succeeded: a second
    request follows, the GET of the object by name, and its answer decides
    the call.  A non-success answer makes create() fail although the POST
    went through, with NotFoundException when the body of that answer is a
    JSON object and with AttributeError when it is anything else, the held
    model being the old one without its resource version; a successful
    answer replaces the held model by the document built from its body. *)
Theorem wrapper_create_refetches
        (o : K8sObject) (log : list HttpRequest) (n : string) (st1 st2 : HttpState) :
  name o = Some n ->
  send log (create_request o) = inr st1 ->
  success st1 = true ->
  send (log ++ [create_request o])%list (get_request (clear_resource_version o) n)
  = inr st2 ->
  let w := Build_World o log in
  let o1 := clear_resource_version o in
  let log2 := (log ++ [create_request o; get_request o1 n])%list in
  let outcome (build : Json -> Exn + Model.t) :=
      if success st2 then
        match build (data st2) with
        | inr m => (inr tt, Build_World (set_model m o1) log2)
        | inl e => (inl e, Build_World o1 log2)
        end
      else
        (match data st2 with
         | JDict d =>
           inl (Raise NotFoundException
                  (Fmt "K8sObject: GET [ {0}:{1} ] failed: HTTP {2} : {3} "
                       [JStr (obj_type o); JStr n; JNum (status st2);
                        match dict_get "message" d with
                        | Some m => m
                        | None => JNull
                        end]))
         | _ => inl (Raise AttributeError (Fmt "object has no attribute 'get'" []))
         end,
         Build_World o1 log2) in
  K8sHorizontalPodAutoscaler_create w = outcome HorizontalPodAutoscaler /\
  K8sStatefulSet_create w = outcome StatefulSet.
Proof.
  intros Hn Hs1 Hok Hs2 w o1 log2 outcome. subst w o1 log2 outcome.
  assert (Hn1 : name (clear_resource_version o) = Some n)
    by (rewrite <- Hn; reflexivity).
  unfold K8sHorizontalPodAutoscaler_create, K8sStatefulSet_create,
         K8sHorizontalPodAutoscaler_get, K8sStatefulSet_get.
  unfold bind at 1 5.
  rewrite (create_run_ok o log n st1 Hn Hs1 Hok).
  rewrite !(get_run _ (clear_resource_version o) _ n st2 Hn1 Hs2).
  cbv zeta. rewrite <- !app_assoc. split; reflexivity.
Qed.

(** update() of either wrapper, once the PUT has succeeded: the GET of the
    object by name follows and decides the call in the same way; on a
    non-success answer update() fails, with NotFoundException when the
    body of that answer is a JSON object and with AttributeError when it
    is anything else, and the held model is the old one without its
    UID. *)
Theorem wrapper_update_refetches
        (o : K8sObject) (log : list HttpRequest) (n : string) (st1 st2 : HttpState) :
  name o = Some n ->
  send log (update_request o n) = inr st1 ->
  success st1 = true ->
  send (log ++ [update_request o n])%list (get_request (clear_uid o) n) = inr st2 ->
  let w := Build_World o log in
  let o1 := clear_uid o in
  let log2 := (log ++ [update_request o n; get_request o1 n])%list in
  let outcome (build : Json -> Exn + Model.t) :=
      if success st2 then
        match build (data st2) with
        | inr m => (inr tt, Build_World (set_model m o1) log2)
        | inl e => (inl e, Build_World o1 log2)
        end
      else
        (match data st2 with
         | JDict d =>
           inl (Raise NotFoundException
                  (Fmt "K8sObject: GET [ {0}:{1} ] failed: HTTP {2} : {3} "
                       [JStr (obj_type o); JStr n; JNum (status st2);
                        match dict_get "message" d with
                        | Some m => m
                        | None => JNull
                        end]))
         | _ => inl (Raise AttributeError (Fmt "object has no attribute 'get'" []))
         end,
         Build_World o1 log2) in
  K8sHorizontalPodAutoscaler_update w = outcome HorizontalPodAutoscaler /\
  K8sStatefulSet_update w = outcome StatefulSet.
Proof.
  intros Hn Hs1 Hok Hs2 w o1 log2 outcome. subst w o1 log2 outcome.
  assert (Hn1 : name (clear_uid o) = Some n) by (rewrite <- Hn; reflexivity).
  unfold K8sHorizontalPodAutoscaler_update, K8sStatefulSet_update,
         K8sHorizontalPodAutoscaler_get, K8sStatefulSet_get.
  unfold bind at 1 5.
  rewrite (update_run_ok o log n st1 Hn Hs1 Hok).
  rewrite !(get_run _ (clear_uid o) _ n st2 Hn1 Hs2).
  cbv zeta. rewrite <- !app_assoc. split; reflexivity.
Qed.

(** *** What every method keeps *)

Lemma evolves_refl (w : World) : evolves w w.
Proof.
  split; [repeat split|]. exists []. rewrite app_nil_r. split; constructor.
Qed.

Lemma carries_config_same (o o' : K8sObject) (r : HttpRequest) :
  config o' = config o -> carries_config o r -> carries_config o' r.
Proof. unfold carries_config. intros ->. exact (fun H => H). Qed.

Lemma evolves_trans (w1 w2 w3 : World) :
  evolves w1 w2 -> evolves w2 w3 -> evolves w1 w3.
Proof.
  intros [(Hc & Hg & Ht & Hu) (rs & Hw & Hf)] [(Hc' & Hg' & Ht' & Hu') (rs' & Hw' & Hf')].
  split.
  - repeat split; congruence.
  - exists (rs ++ rs')%list. split.
    + rewrite Hw', Hw, app_assoc. reflexivity.
    + apply Forall_app. split; [exact Hf|].
      eapply Forall_impl; [|exact Hf'].
      intros r. apply carries_config_same. symmetry. exact Hg.
Qed.

Lemma evolves_bind {A B} (m : M A) (k : A -> M B) (w : World) :
  evolves w (snd (m w)) ->
  (forall a w', evolves w' (snd (k a w'))) ->
  evolves w (snd (bind m k w)).
Proof.
  intros Hm Hk. unfold bind.
  destruct (m w) as [[e|a] w']; cbn in *; [exact Hm|].
  eapply evolves_trans; [exact Hm | apply Hk].
Qed.

Lemma evolves_step (o o' : K8sObject) (log : list HttpRequest) (r : HttpRequest) :
  same_identity o o' -> carries_config o r ->
  evolves (Build_World o log) (Build_World o' (log ++ [r])).
Proof.
  intros Hi Hr. split; [exact Hi|].
  exists [r]. split; [reflexivity|]. constructor; [exact Hr|constructor].
Qed.

Lemma evolves_request (w : World) (method : string) (host url : option string)
      (data : option Doc) :
  host = None ->
  evolves w (snd (request method host url None None data None None None w)).
Proof.
  intros ->. rewrite request_world. destruct w as [o log].
  apply evolves_step; repeat split.
Qed.

Lemma evolves_set_model {A} (r : Exn + A) (w : World) (m : Model.t) :
  evolves w (snd (r, Build_World (set_model m (self w)) (wire w))).
Proof.
  split; [repeat split|]. exists []. cbn. rewrite app_nil_r. split; constructor.
Qed.

Lemma evolves_get (build : Json -> Exn + Model.t) (w : World) :
  evolves w (snd (K8sObject_get_model w)) ->
  evolves w (snd ((d <- K8sObject_get_model ;;
                   m <- lift (build d) ;;
                   o <- get_self ;;
                   put_self (set_model m o)) w)).
Proof.
  intros Hg. apply evolves_bind; [exact Hg|].
  intros d w'. unfold bind, lift, get_self, put_self.
  destruct (build d) as [e|m]; cbn [snd].
  - apply evolves_refl.
  - apply (evolves_set_model (inr tt) w' m).
Qed.

(** Whatever the transport answers and whatever the collaborators do, no
    method changes the class, the configuration, the kind or the base URL
    of the object: only its document model can differ afterwards.  The
    request log only grows, and every request a method adds carries the
    host, credentials, token and CA settings of the object's
    configuration. *)
Theorem methods_keep_identity_and_config
        (w : World) (pattern : option string) (params : option Doc) :
  evolves w (snd (K8sObject_create w)) /\
  evolves w (snd (K8sObject_update w)) /\
  evolves w (snd (K8sObject_delete w)) /\
  evolves w (snd (K8sObject_get_model w)) /\
  evolves w (snd (K8sObject_list w)) /\
  evolves w (snd (K8sObject_get_with_params params w)) /\
  evolves w (snd (K8sHorizontalPodAutoscaler_get w)) /\
  evolves w (snd (K8sHorizontalPodAutoscaler_create w)) /\
  evolves w (snd (K8sHorizontalPodAutoscaler_update w)) /\
  evolves w (snd (K8sHorizontalPodAutoscaler_list pattern w)) /\
  evolves w (snd (K8sStatefulSet_get w)) /\
  evolves w (snd (K8sStatefulSet_create w)) /\
  evolves w (snd (K8sStatefulSet_update w)).
Proof.
  assert (Hbase : forall w,
             evolves w (snd (K8sObject_create w)) /\
             evolves w (snd (K8sObject_update w)) /\
             evolves w (snd (K8sObject_delete w)) /\
             evolves w (snd (K8sObject_get_model w)) /\
             evolves w (snd (K8sObject_list w))).
  { clear w. intros [o log]. rewrite list_world.
    destruct (name o) as [n|] eqn:Hn.
    - rewrite (delete_world o log n Hn), (get_model_world o log n Hn),
        (create_world o log n Hn), (update_world o log n Hn).
      repeat split; apply evolves_step; repeat split.
    - destruct (unset_name_world o log Hn) as (Hc & Hu & Hd & Hg).
      rewrite Hc, Hu, Hd, Hg.
      repeat split; try apply evolves_refl. apply evolves_step; repeat split. }
  assert (Hget : forall build w,
             evolves w (snd ((d <- K8sObject_get_model ;;
                              m <- lift (build d) ;;
                              o <- get_self ;;
                              put_self (set_model m o)) w))).
  { intros build w0. apply evolves_get. apply Hbase. }
  destruct (Hbase w) as (Hc & Hu & Hd & Hg & Hl).
  repeat (match goal with |- _ /\ _ => split end); try assumption.
  - unfold K8sObject_get_with_params.
    destruct (is_valid_dict params); cbn [negb].
    + apply evolves_bind; [apply evolves_refl|].
      intros o w'. apply evolves_bind; [apply evolves_request; reflexivity|].
      intros st w''. apply evolves_refl.
    + apply evolves_refl.
  - apply Hget.
  - apply evolves_bind; [exact Hc|]. intros _ w'. apply Hget.
  - apply evolves_bind; [exact Hu|]. intros _ w'. apply Hget.
  - unfold K8sHorizontalPodAutoscaler_list.
    apply evolves_bind; [exact Hl|]. intros ls w1.
    apply evolves_bind; [apply evolves_refl|]. intros items w2.
    apply evolves_bind; [apply evolves_refl|]. intros hpas w3.
    apply evolves_bind; [destruct pattern; apply evolves_refl|]. intros hpas' w4.
    apply evolves_bind; [apply evolves_refl|]. intros o w5.
    apply evolves_refl.
  - apply Hget.
  - apply evolves_bind; [exact Hc|]. intros _ w'. apply Hget.
  - apply evolves_bind; [exact Hu|]. intros _ w'. apply Hget.
Qed.

(** list() asks for no name.  An answer whose status is 0 raises the
    generic Exception, also when it is flagged successful and whatever its
    body.  Any other successful answer whose body is a JSON object yields
    the "items" entry of the body, and the empty list when the body has
    none; a successful answer with any other body (None, text, a list)
    raises AttributeError. *)
Theorem list_edge_cases (o : K8sObject) (log : list HttpRequest) (st : HttpState) :
  send log (list_request o) = inr st ->
  let r := fst (K8sObject_list (Build_World o log)) in
  (status st = 0 ->
   r = inl (Raise Exception
              (Fmt "K8sObject: Could not fetch list of objects of type: [ {0} ]"
                   [JStr (obj_type o)]))) /\
  (status st <> 0 -> success st = true ->
   forall body items, data st = JDict body -> dict_get "items" body = Some items ->
                      r = inr items) /\
  (status st <> 0 -> success st = true ->
   forall body, data st = JDict body -> dict_get "items" body = None ->
                r = inr (JList [])) /\
  (status st <> 0 -> success st = true -> is_dict (data st) = false ->
   raised r = Some AttributeError).
Proof.
  intros Hs r. subst r. rewrite (list_run o log st Hs). cbn [fst].
  repeat split.
  - intros ->. reflexivity.
  - intros H0 -> body items Hb Hi. destruct (Z.eqb_spec (status st) 0); [contradiction|].
    rewrite (items_of_dict st body Hb), Hi. reflexivity.
  - intros H0 -> body Hb Hi. destruct (Z.eqb_spec (status st) 0); [contradiction|].
    rewrite (items_of_dict st body Hb), Hi. reflexivity.
  - intros H0 -> Hd. destruct (Z.eqb_spec (status st) 0); [contradiction|].
    rewrite (items_of_other st Hd). reflexivity.
Qed.

(** get_with_params() with data that is_valid_dict rejects raises
    SyntaxError and sends nothing.  With accepted data it sends one GET to
    the collection URL carrying the data and reads the "items" of the
    answer without looking at the success flag or the status.  When the
    body of the answer is a JSON object the call returns its "items" (the
    empty list when there are none), be the answer an error or not; when
    the body is anything else, None included, the call raises
    AttributeError. *)
Theorem get_with_params_ignores_status
        (o : K8sObject) (log : list HttpRequest) (params : option Doc)
        (st : HttpState) :
  send log (params_request o params) = inr st ->
  let w := Build_World o log in
  K8sObject_get_with_params params w
  = if is_valid_dict params then
      (match data st with
       | JDict body =>
         inr (match dict_get "items" body with
              | Some items => items
              | None => JList []
              end)
       | _ => inl (Raise AttributeError (Fmt "object has no attribute 'get'" []))
       end,
       Build_World o (log ++ [params_request o params]))
    else
      (inl (Raise SyntaxError
              (Fmt "K8sObject.get_with_params(): data: [ {0} ] is invalid."
                   [match params with Some d => JDict d | None => JNull end])),
       w).
Proof.
  intros Hs w. subst w. unfold K8sObject_get_with_params.
  destruct (is_valid_dict params); cbn [negb]; [|reflexivity].
  unfold bind, get_self, request, lift. cbn [self wire].
  unfold params_request in Hs. rewrite Hs.
  unfold items_of, py_get. destruct (data st); try reflexivity.
  destruct (dict_get "items" d); reflexivity.
Qed.

(** The constructor on a listed kind, with a configuration given: when
    str_to_class yields a model and a base URL can be computed, the new
    object has the class, configuration, kind and base URL asked for, its
    name is the name passed in, and its model is the fresh one with that
    name set and nothing else touched. *)
Theorem init_listed_kind
        (c : K8sClass) (cfg : K8sConfig.t) (ty : string) (n : option string)
        (m : Model.t) (u : string) :
  In ty VALID_K8s_OBJS ->
  str_to_class ty = inr m ->
  get_base_url (K8sConfig.version cfg) (K8sConfig.namespace cfg) ty = Some u ->
  exists o,
    K8sObject_init c (Some cfg) (Some ty) n = inr o /\
    cls o = c /\ config o = cfg /\ obj_type o = ty /\ base_url o = u /\
    name o = n /\
    model o = Model.set_metadata (ObjectMeta.set_name n (Model.metadata m)) m.
Proof.
  intros Hin Hm Hu.
  assert (Hv : in_VALID_K8s_OBJS (Some ty) = true).
  { cbn [in_VALID_K8s_OBJS]. apply existsb_exists. exists ty.
    split; [exact Hin | apply String.eqb_refl]. }
  unfold K8sObject_init. rewrite Hv. cbn [negb or_else]. rewrite Hm, Hu.
  eexists. repeat split.
Qed.

(** Whenever the constructor returns an object, its kind is one of the
    eight listed ones and is the kind asked for, its class is the class
    being instantiated, its name is the name passed in, its configuration
    is the one given (the default one when none was given), its base URL
    is the one computed for that configuration and kind, and its model is
    the fresh model of that kind with the name set. *)
Theorem init_postcondition
        (c : K8sClass) (cfg0 : option K8sConfig.t) (ty n : option string)
        (o : K8sObject) :
  K8sObject_init c cfg0 ty n = inr o ->
  cls o = c /\
  name o = n /\
  ty = Some (obj_type o) /\
  In (obj_type o) VALID_K8s_OBJS /\
  match cfg0 with
  | Some cfg => config o = cfg
  | None => K8sConfig_default = inr (config o)
  end /\
  get_base_url (K8sConfig.version (config o)) (K8sConfig.namespace (config o))
               (obj_type o) = Some (base_url o) /\
  exists m, str_to_class (obj_type o) = inr m /\
            model o = Model.set_metadata (ObjectMeta.set_name n (Model.metadata m)) m.
Proof.
  unfold K8sObject_init.
  destruct (match cfg0 with Some cfg => inr cfg | None => K8sConfig_default end)
    as [e|cfg] eqn:Hcfg; [discriminate|].
  destruct (in_VALID_K8s_OBJS ty) eqn:Hv; cbn [negb]; [|discriminate].
  destruct ty as [t|]; [|discriminate]. cbn [or_else].
  destruct (str_to_class t) as [e|m] eqn:Hm; [discriminate|].
  destruct (get_base_url _ _ t) as [u|] eqn:Hu; [|discriminate].
  intros H. inversion H; subst o; clear H. cbn.
  repeat split; try reflexivity.
  - cbn [in_VALID_K8s_OBJS] in Hv.
    apply existsb_exists in Hv. destruct Hv as (x & Hin & Hx).
    apply String.eqb_eq in Hx. subst x. exact Hin.
  - destruct cfg0; [inversion Hcfg; reflexivity | exact Hcfg].
  - exact Hu.
  - exists m. split; [exact Hm | reflexivity].
Qed.

End Methods.

(** ** The methods on explicit inputs *)

(** Substring test: [str_contains p s] holds exactly when [s] is some
    text, then [p], then some text. *)
Lemma prefix_app (p s : string) :
  prefix p s = true <-> exists b, s = p ++ b.
Proof.
  revert s. induction p as [|c p IH]; intros s.
  - destruct s; cbn; (split; [intros _; eexists; reflexivity | reflexivity]).
  - destruct s as [|d s]; cbn.
    + split; [discriminate | intros [b H]; discriminate].
    + destruct (Ascii.ascii_dec c d) as [->|Hcd].
      * rewrite IH. split; intros [b H]; exists b; [rewrite H; reflexivity|].
        inversion H. reflexivity.
      * split; [discriminate|]. intros [b H]. inversion H. congruence.
Qed.

Lemma str_contains_spec (p s : string) :
  str_contains p s = true <-> exists a b, s = a ++ p ++ b.
Proof.
  induction s as [|c s IH]; cbn [str_contains]; rewrite orb_true_iff, prefix_app.
  - split.
    + intros [[b H]|H]; [exists "", b; exact H | discriminate].
    + intros (a & b & H). left. destruct a; [exists b; exact H | discriminate].
  - rewrite IH. split.
    + intros [[b H]|(a & b & H)].
      * exists "", b. exact H.
      * exists (String c a), b. cbn. rewrite H. reflexivity.
    + intros (a & b & H). destruct a as [|d a].
      * left. exists b. exact H.
      * right. exists a, b. cbn in H. inversion H. reflexivity.
Qed.

(** On models that all carry a name, the filter of
    [K8sHorizontalPodAutoscaler.list] keeps the models whose name contains
    the pattern, in the order of the input. *)
Lemma filter_exn_named (p : string) (xs : list Model.t) :
  Forall (fun x => Model.name x <> None) xs ->
  filter_exn (name_matches p) xs
  = inr (filter (fun x => str_contains p (or_else (Model.name x) "")) xs).
Proof.
  induction 1 as [|x xs Hx _ IH]; cbn; [reflexivity|].
  unfold name_matches at 1. destruct (Model.name x) as [n|]; [|contradiction].
  rewrite IH. cbn. destruct (str_contains p n); reflexivity.
Qed.

Example pod_constructor_succeeds :
  K8sObject_init (inr Demo.cfg) Demo.str_to_class Demo.get_base_url
                 Cls_K8sObject (Some Demo.cfg) (Some "Pod") (Some "web")
  = inr (Build_K8sObject Cls_K8sObject Demo.cfg "Pod"
           (Model.Build (Some "Pod") (Some "v1")
                        (ObjectMeta.Build (Some "web") None None None []) JNull JNull)
           "/api/v1/namespaces/default/Pod").
Proof. reflexivity. Qed.

Example hpa_constructor_fails :
  K8sHorizontalPodAutoscaler_init (inr Demo.cfg) Demo.str_to_class Demo.get_base_url
                                  (Some Demo.cfg) (Some "php-apache")
  = inl (kind_error (Some "HorizontalPodAutoscaler")).
Proof. reflexivity. Qed.

(** C8, on the code.  The server answers a list request with two
    autoscalers, "php-apache" and "nginx".  The filter for the pattern
    "php" keeps the first of them, and list("php") then raises SyntaxError
    while it wraps that item; so does list() without a pattern.  With a
    pattern that no name contains, "zzz", list returns the empty list. *)
Theorem hpa_list_raises_on_first_item :
  let hpa_model := Demo.model_of "HorizontalPodAutoscaler" in
  let list pattern :=
      fst (K8sHorizontalPodAutoscaler_list
             (Demo.reply Demo.listing) (inr Demo.cfg) Demo.str_to_class
             Demo.get_base_url hpa_model pattern (Build_World Demo.hpa [])) in
  (exists m1 m2,
      map_exn hpa_model [Demo.item "php-apache"; Demo.item "nginx"] = inr [m1; m2] /\
      filter_exn (name_matches "php") [m1; m2] = inr [m1] /\
      Model.name m1 = Some "php-apache") /\
  list (Some "php") = inl (kind_error (Some "HorizontalPodAutoscaler")) /\
  list None = inl (kind_error (Some "HorizontalPodAutoscaler")) /\
  list (Some "zzz") = inr [].
Proof.
  cbv zeta. split; [|repeat split; reflexivity].
  eexists _, _. repeat split; reflexivity.
Qed.

(** A transport that raises [IOError] surfaces as a bad request. *)
Example create_offline_is_bad_request :
  K8sObject_create Demo.offline Demo.serialize (Build_World Demo.pod [])
  = (inl (Raise BadRequestException
            (Fmt "K8sObject: IOError: {0}" [JStr "connection refused"])),
     Build_World (clear_resource_version Demo.pod)
                 [create_request Demo.serialize Demo.pod]).
Proof. reflexivity. Qed.

(** An error answer whose body is the text "Unauthorized": create() finds
    no "message" in the text and classifies by status, while update(),
    delete() and get_model() fail on the body before they look at the
    status. *)
Example text_body_answers :
  let w := Build_World Demo.pod [] in
  let t := Demo.reply (Demo.plain 401) in
  raised (fst (K8sObject_create t Demo.serialize w)) = Some UnauthorizedException /\
  raised (fst (K8sObject_update t Demo.serialize w)) = Some AttributeError /\
  raised (fst (K8sObject_delete t Demo.DeleteOptions_serialize w)) = Some AttributeError /\
  raised (fst (K8sObject_get_model t w)) = Some AttributeError.
Proof. repeat split. Qed.

(** Witnesses: the theorems above at the sample objects. *)

Lemma unset_name_is_invalid_state_witness :
  name Demo.anonymous = None /\
  raised (fst (K8sObject_create Demo.offline Demo.serialize
                                (Build_World Demo.anonymous [])))
  = Some SyntaxError /\
  wire (snd (K8sObject_delete Demo.offline Demo.DeleteOptions_serialize
                              (Build_World Demo.anonymous [])))
  = [].
Proof.
  pose proof (unset_name_is_invalid_state
                Demo.offline Demo.serialize Demo.DeleteOptions_serialize
                (Demo.model_of "HorizontalPodAutoscaler") (Demo.model_of "StatefulSet")
                Demo.anonymous [] eq_refl) as (Hc & _ & Hd & _).
  split; [reflexivity|]. split.
  - rewrite Hc. reflexivity.
  - rewrite Hd. reflexivity.
Defined.

Lemma create_payload_has_no_resource_version_witness :
  name Demo.pod = Some "web" /\
  ObjectMeta.resource_version (Model.metadata (model Demo.pod)) = Some "41" /\
  wire (snd (K8sObject_create (Demo.reply (Demo.failure 500)) Demo.serialize
                              (Build_World Demo.pod [])))
  = [create_request Demo.serialize Demo.pod].
Proof.
  split; [reflexivity|]. split; [reflexivity|].
  exact (proj1 (create_payload_has_no_resource_version
                  (Demo.reply (Demo.failure 500)) Demo.serialize Demo.pod []
                  "web" "41" eq_refl eq_refl)).
Defined.

Lemma update_payload_has_no_uid_witness :
  name Demo.pod = Some "web" /\
  ObjectMeta.uid (Model.metadata (model Demo.pod)) = Some "uid-7" /\
  wire (snd (K8sObject_update (Demo.reply (Demo.failure 500)) Demo.serialize
                              (Build_World Demo.pod [])))
  = [update_request Demo.serialize Demo.pod "web"].
Proof.
  split; [reflexivity|]. split; [reflexivity|].
  exact (proj1 (update_payload_has_no_uid
                  (Demo.reply (Demo.failure 500)) Demo.serialize Demo.pod []
                  "web" "uid-7" eq_refl eq_refl)).
Defined.

Lemma create_error_classification_witness :
  name Demo.pod = Some "web" /\
  success (Demo.bare 409) = false /\
  status (Demo.bare 409) = 409 /\
  data (Demo.bare 409) = JNull /\
  raised (fst (K8sObject_create (Demo.reply (Demo.bare 409)) Demo.serialize
                                (Build_World Demo.pod [])))
  = Some TypeError.
Proof.
  split; [reflexivity|]. split; [reflexivity|].
  split; [reflexivity|]. split; [reflexivity|].
  exact (proj1 (create_error_classification
                  (Demo.reply (Demo.bare 409)) Demo.serialize Demo.pod []
                  "web" (Demo.bare 409) eq_refl eq_refl eq_refl) eq_refl).
Defined.

Lemma create_failure_keeps_cleared_resource_version_witness :
  name Demo.pod = Some "web" /\
  success (Demo.failure 500) = false /\
  ObjectMeta.resource_version (Model.metadata (model Demo.pod)) = Some "41" /\
  ObjectMeta.resource_version
    (Model.metadata
       (model (self (snd (K8sObject_create (Demo.reply (Demo.failure 500)) Demo.serialize
                                           (Build_World Demo.pod []))))))
  = None.
Proof.
  split; [reflexivity|]. split; [reflexivity|]. split; [reflexivity|].
  exact (proj1 (proj2 (create_failure_keeps_cleared_resource_version
                         (Demo.reply (Demo.failure 500)) Demo.serialize
                         (Demo.model_of "HorizontalPodAutoscaler")
                         (Demo.model_of "StatefulSet") Demo.pod []
                         "web" (Demo.failure 500) eq_refl eq_refl eq_refl))).
Defined.

Lemma get_not_found_keeps_model_witness :
  name Demo.hpa = Some "web" /\
  success (Demo.bare 404) = false /\
  status (Demo.bare 404) = 404 /\
  data (Demo.bare 404) = JNull /\
  raised (fst (K8sHorizontalPodAutoscaler_get
                 (Demo.reply (Demo.bare 404))
                 (Demo.model_of "HorizontalPodAutoscaler") (Build_World Demo.hpa [])))
  = Some AttributeError.
Proof.
  split; [reflexivity|]. split; [reflexivity|].
  split; [reflexivity|]. split; [reflexivity|].
  exact (proj1 (get_not_found_keeps_model
                  (Demo.reply (Demo.bare 404))
                  (Demo.model_of "HorizontalPodAutoscaler")
                  (Demo.model_of "StatefulSet") Demo.hpa []
                  "web" (Demo.bare 404) eq_refl eq_refl eq_refl eq_refl)).
Defined.


(** Counterexamples to the claims as they are written. *)


(** C9 as written fails.  An autoscaler and a stateful set with the same
    namespace and the same name do not compare equal, in either order;
    neither do a deployment and a replication controller. *)
Lemma eq_counterexample :
  K8sConfig.namespace (config Demo.hpa) = K8sConfig.namespace (config Demo.sts) /\
  name Demo.hpa = name Demo.sts /\
  py_eq Demo.hpa Demo.sts = false /\
  py_eq Demo.sts Demo.hpa = false /\
  K8sConfig.namespace (config Demo.dep) = K8sConfig.namespace (config Demo.rc) /\
  name Demo.dep = name Demo.rc /\
  py_eq Demo.dep Demo.rc = false.
Proof. repeat split. Qed.

(** Objects of one class, and a wrapper against a plain [K8sObject], do
    compare by namespace and name, whatever else their documents hold. *)
Example eq_same_name_other_document :
  py_eq Demo.pod (set_model (Model.Build None None (Demo.named_meta "web")
                                         (JStr "other") JNull) Demo.pod) = true /\
  py_eq Demo.pod Demo.hpa = true /\
  py_eq Demo.hpa Demo.pod = true /\
  py_eq Demo.pod Demo.anonymous = false.
Proof. repeat split. Qed.

(** ** The autoscaler document model: properties *)

Lemma dict_get_set_same (k : string) (v : Json) (d : Doc) :
  dict_get k (dict_set k v d) = Some v.
Proof.
  induction d as [|[k' v'] d IH]; cbn.
  - rewrite String.eqb_refl. reflexivity.
  - destruct (String.eqb k k') eqn:E; cbn.
    + rewrite String.eqb_refl. reflexivity.
    + rewrite E. exact IH.
Qed.

Lemma dict_get_set_other (k k' : string) (v : Json) (d : Doc) :
  k' <> k -> dict_get k' (dict_set k v d) = dict_get k' d.
Proof.
  intros Hk. apply String.eqb_neq in Hk.
  induction d as [|[k0 v0] d IH]; cbn.
  - rewrite Hk. reflexivity.
  - destruct (String.eqb k k0) eqn:E; cbn.
    + apply String.eqb_eq in E. subst k0. rewrite Hk. reflexivity.
    + destruct (String.eqb k' k0); [reflexivity | exact IH].
Qed.

Section AutoscalerProperties.

Context {P : Autoscaler.Parts}.

Import Autoscaler.

(** Case analysis on the innermost scrutinee of a hypothesis. *)
Ltac cases :=
  repeat (match goal with
          | H : context [match ?x with _ => _ end] |- _ =>
            lazymatch x with
            | match _ with _ => _ end => fail
            | _ => destruct x eqn:?; cbn in H; try discriminate H
            end
          end).

Ltac inverts :=
  repeat (match goal with
          | H : inr _ = inr _ |- _ => inversion H; clear H; subst
          end).

(** How [_build_with_model] leaves [_spec] and [_status] when it reads a
    dict. *)
Lemma build_spec_status (d : Doc) (self self' : t) :
  _build_with_model (JDict d) self = inr self' ->
  match dict_get "spec" d with
  | Some j => exists sp, Spec_of j = inr sp /\ _spec self' = Some sp
  | None => _spec self' = _spec self
  end /\
  match dict_get "status" d with
  | Some j => exists st, Status_of j = inr st /\ _status self' = Some st
  | None => _status self' = _status self
  end.
Proof.
  unfold _build_with_model, and_then, when_present, py_lookup, spec_setter,
         status_setter, with_base.
  intros H. cases; inverts; cbn; split; eauto.
Qed.

(** Whatever [_build_with_model] reads, a spec and a status that were set
    stay set. *)
Lemma build_keeps_set (model : Json) (self self' : t) :
  _build_with_model model self = inr self' ->
  _spec self <> None -> _status self <> None ->
  _spec self' <> None /\ _status self' <> None.
Proof.
  unfold _build_with_model, and_then, when_present, spec_setter, status_setter,
         with_base.
  intros H. cases; inverts; cbn; intros; split; congruence.
Qed.

(** The constructor reads five entries of a document and nothing else:
    two documents that agree on "kind", "apiVersion", "metadata", "spec"
    and "status" give the same result, be it a model or an exception. *)
Theorem autoscaler_reads_five_keys (d1 d2 : Doc) :
  (forall k, In k ["kind"; "apiVersion"; "metadata"; "spec"; "status"] ->
             dict_get k d1 = dict_get k d2) ->
  init (JDict d1) = init (JDict d2).
Proof.
  intros H. unfold init, _build_with_model, when_present, py_lookup.
  rewrite (H "kind"), (H "apiVersion"), (H "metadata"), (H "spec"), (H "status")
    by (cbn; tauto).
  reflexivity.
Qed.

(** A document with none of the five entries builds the same model as no
    document at all: kind "HorizontalPodAutoscaler", API version
    "extensions/v1beta1", the default spec and the default status; no
    setter and no sub-model constructor is consulted. *)
Theorem autoscaler_without_entries_is_fresh (d : Doc) :
  (forall k, In k ["kind"; "apiVersion"; "metadata"; "spec"; "status"] ->
             dict_get k d = None) ->
  init (JDict d) = inr fresh /\ init (JDict d) = init JNull.
Proof.
  intros H. unfold init, _build_with_model, when_present, py_lookup.
  rewrite (H "kind"), (H "apiVersion"), (H "metadata"), (H "spec"), (H "status")
    by (cbn; tauto).
  split; reflexivity.
Qed.

(** Spec and status are never None on a model that the constructor
    returned and the setters changed, so serialize() always carries a
    "spec" and a "status" entry: the serializations of the spec and the
    status that the model holds. *)
Theorem autoscaler_serializes_spec_and_status (self : t) :
  Reachable self ->
  exists sp st,
    spec self = Some sp /\ status self = Some st /\
    dict_get "spec" (serialize self) = Some (Spec_serialize sp) /\
    dict_get "status" (serialize self) = Some (Status_serialize st).
Proof.
  intros HR.
  assert (Hset : _spec self <> None /\ _status self <> None).
  { induction HR as [model self Hi|s self self' _ [IH1 IH2] Hs|s self self' _ [IH1 IH2] Hs].
    - destruct model; cbn [init] in Hi;
        try (apply (build_keeps_set _ _ _ Hi); cbn; discriminate).
      inversion Hi. cbn. split; discriminate.
    - destruct s; cbn in Hs; inversion Hs; cbn. split; [discriminate | exact IH2].
    - destruct s; cbn in Hs; inversion Hs; cbn. split; [exact IH1 | discriminate]. }
  destruct Hset as [H1 H2]. unfold serialize, spec, status.
  destruct (_spec self) as [sp|]; [|contradiction].
  destruct (_status self) as [st|]; [|contradiction].
  exists sp, st. repeat split.
  - rewrite dict_get_set_other by discriminate. apply dict_get_set_same.
  - apply dict_get_set_same.
Qed.

(** serialize() adds to the serialization of the base model and changes
    none of its other entries: every key but "spec" and "status" has the
    value the base serialization gives it, or none. *)
Theorem autoscaler_serialize_keeps_base_entries (self : t) (k : string) :
  k <> "spec" -> k <> "status" ->
  dict_get k (serialize self) = dict_get k (BaseModel_serialize (base self)).
Proof.
  intros H1 H2. unfold serialize, spec, status.
  destruct (_spec self), (_status self);
    rewrite ?(dict_get_set_other "status" k) by exact H2;
    rewrite ?(dict_get_set_other "spec" k) by exact H1;
    reflexivity.
Qed.

(** Round trip.  If the spec and status classes serialize to the document
    they were built from, then a model built from a document serializes to
    a document with the same "spec" and the same "status" entry, for each
    of the two that the input has. *)
Theorem autoscaler_round_trip (d : Doc) (self : t) :
  (forall j sp, Spec_of j = inr sp -> Spec_serialize sp = j) ->
  (forall j st, Status_of j = inr st -> Status_serialize st = j) ->
  init (JDict d) = inr self ->
  (forall j, dict_get "spec" d = Some j ->
             dict_get "spec" (serialize self) = Some j) /\
  (forall j, dict_get "status" d = Some j ->
             dict_get "status" (serialize self) = Some j).
Proof.
  intros Hsp Hst Hi. cbn [init] in Hi.
  pose proof (build_keeps_set _ _ _ Hi) as Hset.
  destruct Hset as [H1 H2]; [cbn; discriminate..|].
  destruct (build_spec_status d fresh self Hi) as [Hs Ht].
  unfold serialize, spec, status.
  destruct (_spec self) as [sp|]; [|contradiction].
  destruct (_status self) as [st|]; [|contradiction].
  split; intros j Hj.
  - rewrite Hj in Hs. destruct Hs as (sp' & Hof & Heq). inversion Heq; subst sp'.
    rewrite dict_get_set_other by discriminate.
    rewrite dict_get_set_same, (Hsp j sp Hof). reflexivity.
  - rewrite Hj in Ht. destruct Ht as (st' & Hof & Heq). inversion Heq; subst st'.
    rewrite dict_get_set_same, (Hst j st Hof). reflexivity.
Qed.

End AutoscalerProperties.

(** ** Equality and the name filter: further properties *)

Lemma opt_str_eqb_sym (a b : option string) : opt_str_eqb a b = opt_str_eqb b a.
Proof. destruct a, b; cbn; try reflexivity. apply String.eqb_sym. Qed.

Lemma opt_str_eqb_true (a b : option string) : opt_str_eqb a b = true -> a = b.
Proof.
  destruct a, b; cbn; try discriminate; try reflexivity.
  intros H. apply String.eqb_eq in H. congruence.
Qed.

Lemma opt_str_eqb_refl (a : option string) : opt_str_eqb a a = true.
Proof. destruct a; cbn; [apply String.eqb_refl | reflexivity]. Qed.

(** [==] in one expression: the classes must be related, then namespace
    and name are compared. *)
Lemma py_eq_value (a b : K8sObject) :
  py_eq a b
  = (isinstance b (cls a) || isinstance a (cls b))
    && (String.eqb (K8sConfig.namespace (config a)) (K8sConfig.namespace (config b))
        && opt_str_eqb (name a) (name b)).
Proof.
  unfold py_eq, K8sObject_eq.
  destruct (isinstance b (cls a)); [reflexivity|].
  destruct (isinstance a (cls b)); [|reflexivity].
  cbn. rewrite String.eqb_sym, opt_str_eqb_sym. reflexivity.
Qed.

(** Equality of resource objects is reflexive and symmetric: an object
    equals itself, and the order of the operands of == does not matter,
    also between a wrapper and a plain K8sObject. *)
Theorem py_eq_reflexive_symmetric (a b : K8sObject) :
  py_eq a a = true /\ py_eq a b = py_eq b a.
Proof.
  rewrite !py_eq_value. split.
  - rewrite String.eqb_refl, opt_str_eqb_refl.
    unfold isinstance, issubclass. destruct (cls a); reflexivity.
  - rewrite (orb_comm (isinstance b (cls a))).
    rewrite (String.eqb_sym (K8sConfig.namespace (config a))).
    rewrite (opt_str_eqb_sym (name a)). reflexivity.
Qed.

(** Equality is transitive exactly as far as the classes allow: when
    a == b and b == c, then a == c holds if and only if one of a and c is
    an instance of the other's class.  Two wrappers of different classes
    that both equal one plain K8sObject are not equal to each other. *)
Theorem py_eq_transitive_iff_related (a b c : K8sObject) :
  py_eq a b = true ->
  py_eq b c = true ->
  (py_eq a c = true <-> isinstance c (cls a) = true \/ isinstance a (cls c) = true).
Proof.
  rewrite !py_eq_value, !andb_true_iff, !String.eqb_eq, !orb_true_iff.
  intros (_ & Hn1 & Hm1) (_ & Hn2 & Hm2).
  split; [tauto|]. intros Hr. split; [exact Hr|]. split; [congruence|].
  apply opt_str_eqb_true in Hm1. apply opt_str_eqb_true in Hm2.
  rewrite Hm1, Hm2. apply opt_str_eqb_refl.
Qed.

(** The filter of list(pattern) on models that all carry a name: it
    succeeds, keeps the models in the order of the input, and keeps a
    model exactly when its name contains the pattern, that is when the
    name is some text followed by the pattern followed by some text. *)
Theorem list_filter_keeps_matching (p : string) (xs : list Model.t) :
  Forall (fun x => Model.name x <> None) xs ->
  exists ys,
    filter_exn (name_matches p) xs = inr ys /\
    ys = filter (fun x => str_contains p (or_else (Model.name x) "")) xs /\
    forall x, In x ys <->
              In x xs /\ exists n a b, Model.name x = Some n /\ n = a ++ p ++ b.
Proof.
  intros Hn. eexists. split; [apply filter_exn_named; exact Hn|].
  split; [reflexivity|].
  intros x. rewrite filter_In. split.
  - intros [Hin Hc]. split; [exact Hin|].
    rewrite Forall_forall in Hn. specialize (Hn x Hin).
    destruct (Model.name x) as [n|]; [|contradiction].
    cbn in Hc. apply str_contains_spec in Hc. destruct Hc as (a & b & Hab).
    exists n, a, b. split; [reflexivity | exact Hab].
  - intros [Hin (n & a & b & Hx & Hab)]. split; [exact Hin|].
    rewrite Hx. cbn. apply str_contains_spec. exists a, b. exact Hab.
Qed.

(** The filter of list(pattern) on models one of which has no name: the
    test [pattern in x.name] raises TypeError, and so does the filter. *)
Theorem list_filter_nameless_raises (p : string) (xs : list Model.t) :
  Exists (fun x => Model.name x = None) xs ->
  raised (filter_exn (name_matches p) xs) = Some TypeError.
Proof.
  induction xs as [|x xs IH]; intros H; [inversion H|].
  cbn [filter_exn]. unfold name_matches at 1.
  destruct (Model.name x) as [n|] eqn:Hx; [|reflexivity].
  inversion H as [? ? H0|? ? H0]; subst; [congruence|].
  specialize (IH H0).
  destruct (filter_exn (name_matches p) xs); [exact IH | discriminate IH].
Qed.

(** ** The further properties at the sample objects *)

Lemma get_unset_name_is_invalid_state_witness :
  name Demo.anonymous = None /\
  raised (fst (K8sObject_get_model Demo.offline (Build_World Demo.anonymous [])))
  = Some SyntaxError.
Proof.
  split; [reflexivity|].
  destruct (get_unset_name_is_invalid_state
              Demo.offline (Demo.model_of "HorizontalPodAutoscaler")
              (Demo.model_of "StatefulSet") Demo.anonymous [] eq_refl) as (H & _).
  rewrite H. reflexivity.
Defined.

Lemma io_error_is_bad_request_witness :
  name Demo.pod = Some "web" /\
  (forall r, Demo.offline [] r = inl "connection refused") /\
  raised (fst (K8sObject_get_model Demo.offline (Build_World Demo.pod [])))
  = Some BadRequestException.
Proof.
  split; [reflexivity|]. split; [reflexivity|].
  destruct (io_error_is_bad_request
              Demo.offline Demo.serialize Demo.DeleteOptions_serialize
              (Demo.model_of "HorizontalPodAutoscaler") (Demo.model_of "StatefulSet")
              Demo.pod [] "web" "connection refused" eq_refl (fun _ => eq_refl))
    as (_ & _ & _ & H & _).
  rewrite H. reflexivity.
Defined.

Lemma delete_get_list_requests_witness :
  name Demo.pod = Some "web" /\
  wire (snd (K8sObject_delete (Demo.reply (Demo.failure 404))
                              Demo.DeleteOptions_serialize (Build_World Demo.pod [])))
  = [delete_request Demo.DeleteOptions_serialize Demo.pod "web"].
Proof.
  split; [reflexivity|].
  exact (proj1 (delete_get_list_requests
                  (Demo.reply (Demo.failure 404)) Demo.DeleteOptions_serialize
                  Demo.pod [] "web" eq_refl)).
Defined.

Lemma success_flag_decides_witness :
  name Demo.pod = Some "web" /\
  (forall r, Demo.reply Demo.found [] r = inr Demo.found) /\
  fst (K8sObject_create (Demo.reply Demo.found) Demo.serialize (Build_World Demo.pod []))
  = inr tt.
Proof.
  split; [reflexivity|]. split; [reflexivity|].
  apply (proj1 (success_flag_decides
                  (Demo.reply Demo.found) Demo.serialize Demo.DeleteOptions_serialize
                  Demo.pod [] "web" Demo.found eq_refl (fun _ => eq_refl))).
  reflexivity.
Defined.

Lemma get_replaces_model_witness :
  name Demo.hpa = Some "web" /\
  success Demo.found = true /\
  ObjectMeta.resource_version
    (Model.metadata
       (model (self (snd (K8sHorizontalPodAutoscaler_get
                            (Demo.reply Demo.found)
                            (Demo.model_of "HorizontalPodAutoscaler")
                            (Build_World Demo.hpa []))))))
  = Some "42".
Proof.
  split; [reflexivity|]. split; [reflexivity|].
  destruct (get_replaces_model
              (Demo.reply Demo.found) (Demo.model_of "HorizontalPodAutoscaler")
              (Demo.model_of "StatefulSet") Demo.hpa [] "web" Demo.found
              eq_refl eq_refl eq_refl) as (H & _).
  rewrite H. reflexivity.
Defined.

Lemma wrapper_create_refetches_witness :
  name Demo.hpa = Some "web" /\
  success Demo.found = true /\
  map req_method
      (wire (snd (K8sHorizontalPodAutoscaler_create
                    (Demo.reply Demo.found) Demo.serialize
                    (Demo.model_of "HorizontalPodAutoscaler")
                    (Build_World Demo.hpa []))))
  = ["POST"; "GET"].
Proof.
  split; [reflexivity|]. split; [reflexivity|].
  destruct (wrapper_create_refetches
              (Demo.reply Demo.found) Demo.serialize
              (Demo.model_of "HorizontalPodAutoscaler") (Demo.model_of "StatefulSet")
              Demo.hpa [] "web" Demo.found Demo.found
              eq_refl eq_refl eq_refl eq_refl) as (H & _).
  rewrite H. reflexivity.
Defined.

Lemma wrapper_update_refetches_witness :
  name Demo.hpa = Some "web" /\
  success Demo.found = true /\
  map req_method
      (wire (snd (K8sStatefulSet_update
                    (Demo.reply Demo.found) Demo.serialize
                    (Demo.model_of "StatefulSet") (Build_World Demo.hpa []))))
  = ["PUT"; "GET"].
Proof.
  split; [reflexivity|]. split; [reflexivity|].
  destruct (wrapper_update_refetches
              (Demo.reply Demo.found) Demo.serialize
              (Demo.model_of "HorizontalPodAutoscaler") (Demo.model_of "StatefulSet")
              Demo.hpa [] "web" Demo.found Demo.found
              eq_refl eq_refl eq_refl eq_refl) as (_ & H).
  rewrite H. reflexivity.
Defined.

Lemma list_edge_cases_witness :
  Demo.reply Demo.listing [] (list_request Demo.anonymous) = inr Demo.listing /\
  fst (K8sObject_list (Demo.reply Demo.listing) (Build_World Demo.anonymous []))
  = inr (JList [Demo.item "php-apache"; Demo.item "nginx"]).
Proof.
  split; [reflexivity|].
  destruct (list_edge_cases (Demo.reply Demo.listing) Demo.anonymous [] Demo.listing
                            eq_refl) as (_ & H & _).
  eapply H; [discriminate | reflexivity | reflexivity | reflexivity].
Defined.

Lemma get_with_params_ignores_status_witness :
  let params := Some [ ("labelSelector", JStr "app=web") ] in
  Demo.reply (Demo.failure 500) [] (params_request Demo.pod params)
  = inr (Demo.failure 500) /\
  fst (K8sObject_get_with_params (Demo.reply (Demo.failure 500)) Demo.is_valid_dict
                                 params (Build_World Demo.pod []))
  = inr (JList []).
Proof.
  cbv zeta. split; [reflexivity|].
  rewrite (get_with_params_ignores_status
             (Demo.reply (Demo.failure 500)) Demo.is_valid_dict Demo.pod []
             (Some [ ("labelSelector", JStr "app=web") ]) (Demo.failure 500) eq_refl).
  reflexivity.
Defined.

Lemma init_listed_kind_witness :
  In "Pod" VALID_K8s_OBJS /\
  exists o,
    K8sObject_init (inr Demo.cfg) Demo.str_to_class Demo.get_base_url
                   Cls_K8sObject (Some Demo.cfg) (Some "Pod") (Some "web") = inr o /\
    name o = Some "web".
Proof.
  assert (Hin : In "Pod" VALID_K8s_OBJS) by (cbn; tauto).
  split; [exact Hin|].
  destruct (init_listed_kind
              (inr Demo.cfg) Demo.str_to_class Demo.get_base_url Cls_K8sObject
              Demo.cfg "Pod" (Some "web") (Demo.model_empty "Pod")
              "/api/v1/namespaces/default/Pod" Hin eq_refl eq_refl)
    as (o & Ho & _ & _ & _ & _ & Hn & _).
  exists o. split; [exact Ho | exact Hn].
Defined.

Lemma init_postcondition_witness :
  let o := Build_K8sObject Cls_K8sObject Demo.cfg "Pod"
             (Model.Build (Some "Pod") (Some "v1")
                          (ObjectMeta.Build (Some "web") None None None []) JNull JNull)
             "/api/v1/namespaces/default/Pod" in
  K8sObject_init (inr Demo.cfg) Demo.str_to_class Demo.get_base_url
                 Cls_K8sObject None (Some "Pod") (Some "web") = inr o /\
  In (obj_type o) VALID_K8s_OBJS.
Proof.
  cbv zeta. split; [reflexivity|].
  exact (proj1 (proj2 (proj2 (proj2
           (init_postcondition
              (inr Demo.cfg) Demo.str_to_class Demo.get_base_url Cls_K8sObject
              None (Some "Pod") (Some "web") _ eq_refl))))).
Defined.

Lemma hpa_list_returns_nothing_witness :
  fst (K8sHorizontalPodAutoscaler_list
         (Demo.reply Demo.listing) (inr Demo.cfg) Demo.str_to_class Demo.get_base_url
         (Demo.model_of "HorizontalPodAutoscaler") (Some "zzz") (Build_World Demo.hpa []))
  = inr [] /\
  @nil K8sObject = [].
Proof.
  split; [reflexivity|].
  exact (hpa_list_returns_nothing
           (Demo.reply Demo.listing) (inr Demo.cfg) Demo.str_to_class Demo.get_base_url
           (Demo.model_of "HorizontalPodAutoscaler") (Some "zzz")
           (Build_World Demo.hpa []) [] eq_refl).
Defined.

Lemma py_eq_transitive_iff_related_witness :
  py_eq Demo.hpa Demo.pod = true /\
  py_eq Demo.pod Demo.sts = true /\
  (py_eq Demo.hpa Demo.sts = true <->
   isinstance Demo.sts (cls Demo.hpa) = true \/ isinstance Demo.hpa (cls Demo.sts) = true) /\
  py_eq Demo.hpa Demo.sts = false.
Proof.
  split; [reflexivity|]. split; [reflexivity|].
  split; [|reflexivity].
  exact (py_eq_transitive_iff_related Demo.hpa Demo.pod Demo.sts eq_refl eq_refl).
Defined.

Lemma list_filter_keeps_matching_witness :
  let xs := [ Model.Build None None (Demo.named_meta "php-apache") JNull JNull;
              Model.Build None None (Demo.named_meta "nginx") JNull JNull ] in
  Forall (fun x => Model.name x <> None) xs /\
  exists ys, filter_exn (name_matches "php") xs = inr ys.
Proof.
  cbv zeta.
  assert (H : Forall (fun x => Model.name x <> None)
                     [ Model.Build None None (Demo.named_meta "php-apache") JNull JNull;
                       Model.Build None None (Demo.named_meta "nginx") JNull JNull ])
    by (repeat constructor; discriminate).
  split; [exact H|].
  destruct (list_filter_keeps_matching "php" _ H) as (ys & Hys & _).
  exists ys. exact Hys.
Defined.

Lemma list_filter_nameless_raises_witness :
  let xs := [ Model.Build None None (Demo.named_meta "nginx") JNull JNull;
              Demo.model_empty "HorizontalPodAutoscaler" ] in
  Exists (fun x => Model.name x = None) xs /\
  raised (filter_exn (name_matches "php") xs) = Some TypeError.
Proof.
  cbv zeta.
  assert (H : Exists (fun x => Model.name x = None)
                     [ Model.Build None None (Demo.named_meta "nginx") JNull JNull;
                       Demo.model_empty "HorizontalPodAutoscaler" ])
    by (apply Exists_cons_tl, Exists_cons_hd; reflexivity).
  split; [exact H|].
  exact (list_filter_nameless_raises "php" _ H).
Defined.

Lemma autoscaler_reads_five_keys_witness :
  let d := [ ("kind", JStr "HorizontalPodAutoscaler");
             ("spec", JDict [ ("maxReplicas", JNum 10) ]) ] in
  let d' := (("selfLink", JStr "/apis/x") :: d ++ [ ("extra", JNull) ])%list in
  (forall k, In k ["kind"; "apiVersion"; "metadata"; "spec"; "status"] ->
             dict_get k d = dict_get k d') /\
  Autoscaler.init (P := Autoscaler.demo) (JDict d)
  = Autoscaler.init (P := Autoscaler.demo) (JDict d').
Proof.
  cbv zeta.
  assert (H : forall k, In k ["kind"; "apiVersion"; "metadata"; "spec"; "status"] ->
                        dict_get k [ ("kind", JStr "HorizontalPodAutoscaler");
                                     ("spec", JDict [ ("maxReplicas", JNum 10) ]) ]
                        = dict_get k ((("selfLink", JStr "/apis/x")
                                         :: [ ("kind", JStr "HorizontalPodAutoscaler");
                                              ("spec", JDict [ ("maxReplicas", JNum 10) ]) ]
                                         ++ [ ("extra", JNull) ])%list)).
  { intros k [<-|[<-|[<-|[<-|[<-|[]]]]]]; reflexivity. }
  split; [exact H|].
  exact (autoscaler_reads_five_keys (P := Autoscaler.demo) _ _ H).
Defined.

Lemma autoscaler_without_entries_is_fresh_witness :
  let d := [ ("selfLink", JStr "/apis/x") ] in
  (forall k, In k ["kind"; "apiVersion"; "metadata"; "spec"; "status"] ->
             dict_get k d = None) /\
  Autoscaler.init (P := Autoscaler.demo) (JDict d)
  = inr (Autoscaler.fresh (P := Autoscaler.demo)).
Proof.
  cbv zeta.
  assert (H : forall k, In k ["kind"; "apiVersion"; "metadata"; "spec"; "status"] ->
                        dict_get k [ ("selfLink", JStr "/apis/x") ] = None).
  { intros k [<-|[<-|[<-|[<-|[<-|[]]]]]]; reflexivity. }
  split; [exact H|].
  exact (proj1 (autoscaler_without_entries_is_fresh (P := Autoscaler.demo) _ H)).
Defined.

Lemma autoscaler_serializes_spec_and_status_witness :
  exists self,
    Autoscaler.init (P := Autoscaler.demo) (JDict Autoscaler.php_apache) = inr self /\
    Autoscaler.Reachable self /\
    exists sp st,
      dict_get "spec" (Autoscaler.serialize self) = Some sp /\
      dict_get "status" (Autoscaler.serialize self) = Some st.
Proof.
  destruct (Autoscaler.init (P := Autoscaler.demo) (JDict Autoscaler.php_apache))
    as [e|self] eqn:Hi; [vm_compute in Hi; discriminate|].
  exists self. split; [reflexivity|].
  assert (HR : Autoscaler.Reachable self)
    by exact (Autoscaler.reach_init _ _ Hi).
  split; [exact HR|].
  destruct (autoscaler_serializes_spec_and_status self HR) as (sp & st & _ & _ & H1 & H2).
  exists (Autoscaler.Spec_serialize sp), (Autoscaler.Status_serialize st).
  split; assumption.
Defined.

Lemma autoscaler_serialize_keeps_base_entries_witness :
  "kind" <> "spec" /\ "kind" <> "status" /\
  dict_get "kind" (Autoscaler.serialize (Autoscaler.fresh (P := Autoscaler.demo)))
  = Some (JStr "HorizontalPodAutoscaler").
Proof.
  assert (H1 : "kind" <> "spec") by discriminate.
  assert (H2 : "kind" <> "status") by discriminate.
  split; [exact H1|]. split; [exact H2|].
  rewrite (autoscaler_serialize_keeps_base_entries
             (Autoscaler.fresh (P := Autoscaler.demo)) "kind" H1 H2).
  reflexivity.
Defined.

Lemma autoscaler_round_trip_witness :
  (forall j sp, Autoscaler.Spec_of (Parts := Autoscaler.demo) j = inr sp ->
                Autoscaler.Spec_serialize sp = j) /\
  (forall j st, Autoscaler.Status_of (Parts := Autoscaler.demo) j = inr st ->
                Autoscaler.Status_serialize st = j) /\
  exists self,
    Autoscaler.init (P := Autoscaler.demo) (JDict Autoscaler.php_apache) = inr self /\
    dict_get "spec" (Autoscaler.serialize self)
    = dict_get "spec" Autoscaler.php_apache.
Proof.
  assert (H1 : forall j sp, Autoscaler.Spec_of (Parts := Autoscaler.demo) j = inr sp ->
                            Autoscaler.Spec_serialize sp = j)
    by (intros j sp H; inversion H; reflexivity).
  assert (H2 : forall j st, Autoscaler.Status_of (Parts := Autoscaler.demo) j = inr st ->
                            Autoscaler.Status_serialize st = j)
    by (intros j st H; inversion H; reflexivity).
  split; [exact H1|]. split; [exact H2|].
  destruct (Autoscaler.init (P := Autoscaler.demo) (JDict Autoscaler.php_apache))
    as [e|self] eqn:Hi; [vm_compute in Hi; discriminate|].
  exists self. split; [reflexivity|].
  destruct (autoscaler_round_trip (P := Autoscaler.demo)
              Autoscaler.php_apache self H1 H2 Hi) as (Hs & _).
  apply Hs. reflexivity.
Defined.
